(** * Token estimator for JSONL training sets: [scripts/count_tokens.py]

    A shallow embedding of the script and the properties of its
    per-line loop, its start-up checks, its report and its command line.

    What the script gets from outside (the JSON decoder of the Python
    library, the GenAI client and its token-counting service, the text of an
    exception) is gathered in one record, [runtime]; the file system and the
    process environment are a [world].  Everything else is the script's own
    code, translated line by line. *)

From Stdlib Require Import ZArith NArith Ascii String List Bool Lia Decimal DecimalZ DecimalPos.
From stdpp Require Import base option list gmap.

Local Open Scope Z_scope.

(** ** Python strings

    A [str] is a sequence of Unicode code points. *)

Abbreviation str := (list N).

(** An ASCII literal of the source, as a [str]. *)
Definition py (s : string) : str := map N_of_ascii (list_ascii_of_string s).

(** [Py_UNICODE_ISSPACE], the test behind [str.strip()] and
    [str.isspace()]. *)
Definition isspace_char (c : N) : bool :=
  ((9 <=? c) && (c <=? 13) || (28 <=? c) && (c <=? 32)
   || (c =? 0x85) || (c =? 0xA0) || (c =? 0x1680)
   || (0x2000 <=? c) && (c <=? 0x200A)
   || (c =? 0x2028) || (c =? 0x2029) || (c =? 0x202F)
   || (c =? 0x205F) || (c =? 0x3000))%N.

Fixpoint lstrip (s : str) : str :=
  match s with
  | c :: s' => if isspace_char c then lstrip s' else s
  | [] => []
  end.

Definition rstrip (s : str) : str := reverse (lstrip (reverse s)).

(** [s.strip()] *)
Definition strip (s : str) : str := rstrip (lstrip s).

(** [s.isspace()]: at least one character, and all of them whitespace. *)
Definition isspace (s : str) : bool :=
  match s with
  | [] => false
  | _ :: _ => forallb isspace_char s
  end.

(** Truth value of a string: [not s] holds for the empty string only. *)
Definition str_truthy (s : str) : bool :=
  match s with [] => false | _ :: _ => true end.

(** ** Printing integers *)

Fixpoint digits_of_uint (d : Decimal.uint) : str :=
  match d with
  | Nil => []
  | D0 d => 48%N :: digits_of_uint d
  | D1 d => 49%N :: digits_of_uint d
  | D2 d => 50%N :: digits_of_uint d
  | D3 d => 51%N :: digits_of_uint d
  | D4 d => 52%N :: digits_of_uint d
  | D5 d => 53%N :: digits_of_uint d
  | D6 d => 54%N :: digits_of_uint d
  | D7 d => 55%N :: digits_of_uint d
  | D8 d => 56%N :: digits_of_uint d
  | D9 d => 57%N :: digits_of_uint d
  end.

Definition minus_sign : N := 45.
Definition comma : N := 44.

(** The decimal digits of the absolute value, most significant first. *)
Definition abs_digits (n : Z) : str :=
  match Z.to_int n with
  | Pos d => digits_of_uint d
  | Neg d => digits_of_uint d
  end.

Definition sign_of (n : Z) : str := if n <? 0 then [minus_sign] else [].

(** [str(n)], which is also what [f"{n}"] prints. *)
Definition str_of_int (n : Z) : str := sign_of n ++ abs_digits n.

(** Grouping, on the digits taken least significant first: [k] counts the
    digits already written in the current group. *)
Fixpoint group3 (ds : str) (k : nat) : str :=
  match ds with
  | [] => []
  | d :: ds' =>
      match k with
      | 3%nat => comma :: d :: group3 ds' 1
      | _ => d :: group3 ds' (S k)
      end
  end.

(** [f"{n:,}"]: the decimal digits in groups of three, separated by commas. *)
Definition format_comma (n : Z) : str :=
  sign_of n ++ reverse (group3 (reverse (abs_digits n)) 0).

(** Reading a printed integer back: the inverse used to say which number a
    printed line shows. *)
Fixpoint uint_of_digits (s : str) : option Decimal.uint :=
  match s with
  | [] => Some Nil
  | c :: s' =>
      d ← uint_of_digits s';
      if (c =? 48)%N then Some (D0 d) else
      if (c =? 49)%N then Some (D1 d) else
      if (c =? 50)%N then Some (D2 d) else
      if (c =? 51)%N then Some (D3 d) else
      if (c =? 52)%N then Some (D4 d) else
      if (c =? 53)%N then Some (D5 d) else
      if (c =? 54)%N then Some (D6 d) else
      if (c =? 55)%N then Some (D7 d) else
      if (c =? 56)%N then Some (D8 d) else
      if (c =? 57)%N then Some (D9 d) else None
  end.

Definition int_of_str (s : str) : option Z :=
  match s with
  | [] => None
  | c :: s' =>
      if (c =? minus_sign)%N
      then d ← uint_of_digits s'; Some (Z.of_int (Neg d))
      else d ← uint_of_digits s; Some (Z.of_int (Pos d))
  end.

Definition read_comma (s : str) : option Z :=
  int_of_str (filter (λ c, c ≠ comma) s).

(** ** Exceptions and results

    Exceptions, by the classes the [except] clauses of the script tell
    apart: [json.JSONDecodeError]; [APIError] with its subclasses; the errors
    the interpreter raises on a value of the wrong shape; any other
    [Exception]. *)

Inductive exn : Type :=
| JSONDecodeError (msg : str)
| APIError (msg : str)
| AttributeError
| IndexError
| KeyError
| TypeError
| OtherException (msg : str).

Inductive result (A : Type) : Type :=
| Ok (a : A)
| Raise (e : exn).
Arguments Ok {A} a.
Arguments Raise {A} e.

#[global] Instance result_ret : MRet result := @Ok.
#[global] Instance result_bind : MBind result :=
  λ A B f m, match m with Ok a => f a | Raise e => Raise e end.

(** ** Decoded JSON values

    What [json.loads] returns: [None], [bool], [int], [float] (as its
    binary64 bit pattern), [str], [list] and [dict] (keys in insertion
    order). *)

#[local] Unset Elimination Schemes.
Inductive json : Type :=
| JNull
| JBool (b : bool)
| JInt (n : Z)
| JFloat (bits : Z)
| JStr (s : str)
| JList (l : list json)
| JDict (d : list (str * json)).
#[local] Set Elimination Schemes.

Fixpoint dict_lookup (d : list (str * json)) (k : str) : option json :=
  match d with
  | [] => None
  | (k', v) :: d' => if decide (k' = k) then Some v else dict_lookup d' k
  end.

(** Truth value of an object, as [if v:] tests it. *)
Definition truthy (v : json) : bool :=
  match v with
  | JNull => false
  | JBool b => b
  | JInt n => negb (n =? 0)
  | JFloat bits => negb (Z.land bits 0x7FFFFFFFFFFFFFFF =? 0)
  | JStr s => str_truthy s
  | JList l => match l with [] => false | _ :: _ => true end
  | JDict d => match d with [] => false | _ :: _ => true end
  end.

(** [v.get(k, dflt)]: only a [dict] has the method. *)
Definition py_get (v : json) (k : str) (dflt : json) : result json :=
  match v with
  | JDict d => Ok (default dflt (dict_lookup d k))
  | _ => Raise AttributeError
  end.

(** [v[0]] *)
Definition py_index0 (v : json) : result json :=
  match v with
  | JList (x :: _) => Ok x
  | JList [] => Raise IndexError
  | JStr (c :: _) => Ok (JStr [c])
  | JStr [] => Raise IndexError
  | JDict _ => Raise KeyError   (* the keys of a decoded object are strings *)
  | _ => Raise TypeError
  end.

(** [v[k]] for a string key [k] *)
Definition py_getitem (v : json) (k : str) : result json :=
  match v with
  | JDict d =>
      match dict_lookup d k with
      | Some x => Ok x
      | None => Raise KeyError
      end
  | _ => Raise TypeError
  end.

(** The objects a [for] loop over [v] visits. *)
Definition py_iter (v : json) : result (list json) :=
  match v with
  | JList l => Ok l
  | JStr s => Ok (map (λ c, JStr [c]) s)
  | JDict d => Ok (map (λ kv, JStr kv.1) d)
  | _ => Raise TypeError
  end.

(** ** Field extraction (lines 52-62) *)

(** The loop of lines 59-62, from the [text_to_count] built so far. *)
Fixpoint collect_texts (contents : list json) (text_to_count : list json)
  : result (list json) :=
  match contents with
  | [] => Ok text_to_count
  | content :: rest =>
      parts ← py_get content (py "parts") JNull;
      if truthy parts then
        parts' ← py_getitem content (py "parts");
        part ← py_index0 parts';
        text ← py_getitem part (py "text");
        collect_texts rest (text_to_count ++ [text])
      else collect_texts rest text_to_count
  end.

Definition extract_texts (data : json) : result (list json) :=
  si ← py_get data (py "systemInstruction") (JDict []);
  parts ← py_get si (py "parts") (JList [JDict []]);
  part ← py_index0 parts;
  system_instruction ← py_get part (py "text") (JStr []);
  contents ← py_get data (py "contents") (JList []);
  let text_to_count :=
    if truthy system_instruction then [system_instruction] else [] in
  items ← py_iter contents;
  collect_texts items text_to_count.

(** ** The outside world *)

(** The GenAI client, built for Vertex AI with a project and a location. *)
Record client : Type := Client { project : str; location : str }.

(** One call of [client.models.count_tokens]: what was sent, and what came
    back ([response.total_tokens], or the exception raised). *)
Record call : Type := Call {
  call_model : str;
  call_contents : list json;
  call_response : result Z
}.

(** What the script calls but does not define.  The service may answer the
    same request differently from one call to the next, so it sees the calls
    made before. *)
Record runtime : Type := Runtime {
  json_loads : str → result json;
  genai_Client : str → str → result client;
  count_tokens : client → list call → str → list json → result Z;
  exn_str : exn → str
}.

(** A text file is the sequence of its lines, each as the iteration over
    the open file yields it, end of line included.  Files whose bytes are
    not UTF-8 are left out. *)
Inductive fs_node : Type :=
| FsFile (lines : list str)
| FsDir.

(** What [os.path.exists], [open] and [os.environ] see. *)
Record world : Type := World {
  files : gmap str fs_node;
  environ : gmap str str
}.

Definition os_path_exists (w : world) (path : str) : bool :=
  bool_decide (is_Some (files w !! path)).

(** [open(path, 'r')] and the iteration over the file; a directory cannot be
    opened. *)
Definition open_lines (w : world) (path : str) : result (list str) :=
  match files w !! path with
  | Some (FsFile lines) => Ok lines
  | Some FsDir => Raise (OtherException (py "IsADirectoryError"))
  | None => Raise (OtherException (py "FileNotFoundError"))
  end.

(** [not v] for the value of [os.environ.get]: unset, or empty. *)
Definition env_missing (v : option str) : bool :=
  match v with
  | None => true
  | Some s => negb (str_truthy s)
  end.

(** ** State of a run *)

Record state : Type := State {
  total_tokens : Z;
  total_examples : Z;
  calls : list call;      (* the calls made to the service, oldest first *)
  stdout : list str       (* the strings printed, oldest first *)
}.

(** Nothing printed, no call made, and the counters as lines 28-29 set
    them. *)
Definition init_state : state := State 0 0 [] [].

Definition print (st : state) (s : str) : state :=
  State (total_tokens st) (total_examples st) (calls st) (stdout st ++ [s]).

(** How the process ends: after its last statement, by [sys.exit(code)], or
    by an exception that nothing catches. *)
Inductive termination : Type :=
| Completed
| SysExit (code : Z)
| Uncaught (e : exn).

Definition exit_code (t : termination) : Z :=
  match t with
  | Completed => 0
  | SysExit code => code
  | Uncaught _ => 1
  end.

(** One turn of the loop either goes on to the next line or ends the
    process. *)
Inductive step : Type :=
| Continue (st : state)
| Stop (st : state) (t : termination).

(** ** The script *)

Definition cross_mark : N := 0x274C.
Definition sparkles : N := 0x2728.
Definition newline : N := 10.

Definition rule : str := py "==========================================".

Definition banner : str := sparkles :: py " GEMINI TRAINING TOKEN ESTIMATE".

Definition default_path : str := py "data/training.jsonl".
Definition default_model : str := py "gemini-2.0-flash-001".

Section Script.

Context (rt : runtime).

Definition log_call (st : state) (c : call) : state :=
  State (total_tokens st) (total_examples st) (calls st ++ [c]) (stdout st).

(** The [try] block up to the call (lines 49-68): the response of the
    service, or the exception that left the block. *)
Definition try_count (cl : client) (model_name : str) (st : state) (line : str)
  : state * result Z :=
  match data ← json_loads rt line; extract_texts data with
  | Raise e => (st, Raise e)
  | Ok text_to_count =>
      let response := count_tokens rt cl (calls st) model_name text_to_count in
      (log_call st (Call model_name text_to_count response), response)
  end.

Definition skip_message (n : Z) : str :=
  py "Skipping line " ++ str_of_int n
    ++ py ": Invalid JSON format. Run schema validator!".

Definition api_error_message (n : Z) : str :=
  cross_mark :: py " API Error on line " ++ str_of_int n
    ++ py ". Check model name or quotas.".

Definition unexpected_message (e : exn) : str :=
  py "An unexpected error occurred: " ++ exn_str rt e.

(** The [except] clauses (lines 73-81), chosen by the class of the
    exception that left the [try] block. *)
Definition handle (st : state) (e : exn) : step :=
  match e with
  | JSONDecodeError _ =>
      Continue (print st (skip_message (total_examples st + 1)))
  | APIError _ =>
      Stop (print (print st (api_error_message (total_examples st + 1)))
                  (exn_str rt e))
           (SysExit 1)
  | _ =>
      Stop (print st (unexpected_message e)) (SysExit 1)
  end.

(** Lines 70-71. *)
Definition add_response (st : state) (response_total_tokens : Z) : state :=
  State (total_tokens st + response_total_tokens) (total_examples st + 1)
        (calls st) (stdout st).

(** The body of the [for] loop (lines 44-81). *)
Definition process_line (cl : client) (model_name : str) (st : state) (line : str)
  : step :=
  let line := strip line in
  if negb (str_truthy line) then Continue st
  else
    let '(st, r) := try_count cl model_name st line in
    match r with
    | Ok response_total_tokens => Continue (add_response st response_total_tokens)
    | Raise e => handle st e
    end.

(** The [for] loop over the lines of the file (line 43). *)
Fixpoint run_lines (cl : client) (model_name : str) (st : state) (lines : list str)
  : step :=
  match lines with
  | [] => Continue st
  | line :: rest =>
      match process_line cl model_name st line with
      | Continue st' => run_lines cl model_name st' rest
      | Stop st' t => Stop st' t
      end
  end.

(** The final output (lines 84-94). *)
Definition report_lines (file_path : str) (examples tokens : Z) : list str :=
  let estimated_cost_tokens := tokens * 3 in
  [ newline :: rule;
    banner;
    rule;
    py "File: " ++ file_path;
    py "Total Examples: " ++ str_of_int examples;
    py "Total Training Tokens: " ++ format_comma tokens;
    py "Estimated Tokens (3 Epochs): " ++ format_comma estimated_cost_tokens;
    rule ].

Definition final_report (file_path : str) (st : state) : state :=
  State (total_tokens st) (total_examples st) (calls st)
        (stdout st ++ report_lines file_path (total_examples st) (total_tokens st)).

(** What is left to do once the checks have passed and the client exists. *)
Record started : Type := Started {
  started_client : client;
  started_state : state
}.

(** Lines 15-40: the checks, the counters set to zero, the client, the
    header. *)
Definition startup (w : world) (file_path model_name : str)
  : started + state * termination :=
  if negb (os_path_exists w file_path) then
    inr (print init_state
           (cross_mark :: py " Error: Dataset file not found at path: " ++ file_path),
         SysExit 1)
  else
    let project_id := environ w !! py "GCP_PROJECT" in
    let location := environ w !! py "GCP_LOCATION" in
    if env_missing project_id || env_missing location then
      inr (print (print init_state
             (cross_mark :: py " Error: GCP_PROJECT or GCP_LOCATION environment variables are missing."))
             (py "Ensure they are set in the workflow YAML (e.g., env: GCP_PROJECT: ${{ secrets.GCP_PROJECT_ID }})."),
           SysExit 1)
    else
      let project_id := default [] project_id in
      let location := default [] location in
      let st := init_state in
      match genai_Client rt project_id location with
      | Raise e =>
          inr (print (print st
                 (cross_mark :: py " Error initializing GenAI client. Check project/location and WIF token scope."))
                 (exn_str rt e),
               SysExit 1)
      | Ok cl =>
          let st := print st (py "Counting tokens for model: " ++ model_name
                              ++ py " in " ++ location ++ py "...") in
          let st := print st (repeat 45%N 30) in
          inl (Started cl st)
      end.

(** [count_tokens_in_jsonl(file_path, model_name)]: the state the process
    ends in, and how it ends. *)
Definition count_tokens_in_jsonl (w : world) (file_path model_name : str)
  : state * termination :=
  match startup w file_path model_name with
  | inr stopped => stopped
  | inl (Started cl st) =>
      match open_lines w file_path with
      | Raise e => (st, Uncaught e)
      | Ok lines =>
          match run_lines cl model_name st lines with
          | Stop st' t => (st', t)
          | Continue st' => (final_report file_path st', Completed)
          end
      end
  end.

(** Lines 107-111: the path the script works on, from the positional
    argument as [argparse] hands it over. *)
Definition file_to_check (args_file_path : str) : str :=
  if negb (str_truthy args_file_path) || isspace args_file_path
  then py "data/training.jsonl"
  else args_file_path.

(** [parser.parse_args()]: an absent argument takes its default. *)
Definition parse_args (file_path model : option str) : str * str :=
  (default (py "data/training.jsonl") file_path,
   default (py "gemini-2.0-flash-001") model).

(** The script run from the command line (lines 97-113). *)
Definition main (w : world) (file_path model : option str) : state * termination :=
  let args := parse_args file_path model in
  count_tokens_in_jsonl w (file_to_check args.1) args.2.

End Script.

(** ** Reading a run

    The notions the properties below are stated with. *)

Definition step_state (s : step) : state :=
  match s with
  | Continue st => st
  | Stop st _ => st
  end.

(** A call that returned a count. *)
Definition ok_response (c : call) : bool :=
  match call_response c with
  | Ok _ => true
  | Raise _ => false
  end.

Definition response_tokens (c : call) : Z :=
  match call_response c with
  | Ok n => n
  | Raise _ => 0
  end.

(** The sum of the counts the service returned. *)
Definition tokens_returned (cs : list call) : Z :=
  foldr (λ c acc, response_tokens c + acc) 0 cs.

(** The number of records decoded and counted: the calls that returned a
    count. *)
Definition counted_records (cs : list call) : nat :=
  length (filter ok_response cs).

Definition nonblank (line : str) : bool := str_truthy (strip line).

(** A non-blank line that [json.loads] accepts. *)
Definition decodes (rt : runtime) (line : str) : bool :=
  nonblank line &&
  match json_loads rt (strip line) with
  | Ok _ => true
  | Raise _ => false
  end.

(** A line holding a well-formed record: it decodes, and the fields the
    script reads are where it reads them. *)
Definition well_formed (rt : runtime) (line : str) : bool :=
  match json_loads rt (strip line) with
  | Ok data =>
      match extract_texts data with
      | Ok _ => true
      | Raise _ => false
      end
  | Raise _ => false
  end.

(** The exceptions the interpreter raises on a value of the wrong shape. *)
Definition shape_error (e : exn) : bool :=
  match e with
  | AttributeError | IndexError | KeyError | TypeError => true
  | _ => false
  end.

(** A warning of line 74. *)
Definition skip_warning (s : str) : Prop := ∃ n, s = skip_message n.

(** What a stretch of the run did to the state: the calls it made, what it
    printed, and the counters moved by the calls that returned a count. *)
Definition effect (st st' : state) (new : list call) (out : list str) : Prop :=
  calls st' = calls st ++ new
  ∧ stdout st' = stdout st ++ out
  ∧ total_examples st' = total_examples st + Z.of_nat (counted_records new)
  ∧ total_tokens st' = total_tokens st + tokens_returned new.

(** The number of lines that decode. *)
Definition decoded_count (rt : runtime) (lines : list str) : nat :=
  length (filter (decodes rt) lines).

(** The number of non-blank lines. *)
Definition nonblank_count (lines : list str) : nat :=
  length (filter nonblank lines).

(** The count the service returned for a line, when the line was parsed and
    counted. *)
Definition counted_response (rt : runtime) (cl : client) (model_name : str)
    (st : state) (line : str) : option Z :=
  if nonblank line then
    match json_loads rt (strip line) with
    | Ok data =>
        match extract_texts data with
        | Ok texts =>
            match count_tokens rt cl (calls st) model_name texts with
            | Ok n => Some n
            | Raise _ => None
            end
        | Raise _ => None
        end
    | Raise _ => None
    end
  else None.

(** Two ways for a decoded record to be out of shape: the system instruction
    has an empty list of parts; or the first element of the non-empty list
    of parts of a content entry has no text. *)
Inductive malformed : json → Prop :=
| empty_system_parts d si :
    dict_lookup d (py "systemInstruction") = Some (JDict si) →
    dict_lookup si (py "parts") = Some (JList []) →
    malformed (JDict d)
| part_without_text d items c p ps :
    dict_lookup d (py "contents") = Some (JList items) →
    JDict c ∈ items →
    dict_lookup c (py "parts") = Some (JList (JDict p :: ps)) →
    dict_lookup p (py "text") = None →
    malformed (JDict d).

(** ** Sample data

    A runtime and files to run the script on.  In a literal, ['] stands for
    the double quote. *)

Definition quoted (s : string) : str :=
  map (λ c, if (c =? 39)%N then 34%N else c) (py s).

Definition line_hi : str := quoted "{'contents':[{'parts':[{'text':'hi'}]}]}".
Definition line_chat : str :=
  quoted "{'systemInstruction':{'parts':[{'text':'be brief'}]},'contents':[{'role':'user','parts':[{'text':'hello'}]},{'role':'model','parts':[{'text':'hi there'}]}]}".
Definition line_no_text : str := quoted "{'contents':[{'parts':[{}]}]}".
Definition line_no_parts : str := quoted "{'systemInstruction':{'parts':[]}}".
Definition line_garbled : str := quoted "{'contents': [".

Definition text_part (s : string) : json := JDict [(py "text", JStr (py s))].

Definition record_hi : json :=
  JDict [(py "contents", JList [JDict [(py "parts", JList [text_part "hi"])]])].
Definition record_chat : json :=
  JDict [(py "systemInstruction", JDict [(py "parts", JList [text_part "be brief"])]);
         (py "contents",
          JList [JDict [(py "role", JStr (py "user"));
                        (py "parts", JList [text_part "hello"])];
                 JDict [(py "role", JStr (py "model"));
                        (py "parts", JList [text_part "hi there"])]])].
Definition record_no_text : json :=
  JDict [(py "contents", JList [JDict [(py "parts", JList [JDict []])]])].
Definition record_no_parts : json :=
  JDict [(py "systemInstruction", JDict [(py "parts", JList [])])].

(** [json.loads] on the sample lines; [line_garbled], like every other text
    here, is rejected. *)
Definition sample_loads (line : str) : result json :=
  if decide (line = line_hi) then Ok record_hi
  else if decide (line = line_chat) then Ok record_chat
  else if decide (line = line_no_text) then Ok record_no_text
  else if decide (line = line_no_parts) then Ok record_no_parts
  else Raise (JSONDecodeError (py "Expecting value")).

(** A service that answers 5 tokens to the first call, 7 to the second, and
    so on. *)
Definition sample_count (cl : client) (history : list call) (model_name : str)
    (contents : list json) : result Z :=
  Ok (5 + 2 * Z.of_nat (length history)).

Definition sample_exn_str (e : exn) : str :=
  match e with
  | JSONDecodeError msg | APIError msg | OtherException msg => msg
  | AttributeError => py "AttributeError"
  | IndexError => py "list index out of range"
  | KeyError => py "'text'"
  | TypeError => py "TypeError"
  end.

Definition sample_rt : runtime :=
  Runtime sample_loads (λ p l, Ok (Client p l)) sample_count sample_exn_str.

Definition sample_client : client := Client (py "demo") (py "us-central1").

Definition sample_environ : gmap str str :=
  {[ py "GCP_PROJECT" := py "demo"; py "GCP_LOCATION" := py "us-central1" ]}.

Definition with_file (lines : list str) : world :=
  World {[ default_path := FsFile lines ]} sample_environ.

Definition eol (line : str) : str := line ++ [newline].

(** Two records, a blank line and a line that is not JSON. *)
Definition mixed_lines : list str :=
  [eol line_hi; [newline]; eol line_garbled; eol line_chat].

(** Two records and blank lines. *)
Definition clean_lines : list str :=
  [eol line_hi; [32; 9; newline]%N; eol line_chat].

(** A record, a record without text, a record. *)
Definition broken_lines : list str :=
  [eol line_hi; eol line_no_text; eol line_hi].

(** What lines 39-40 print. *)
Definition header (model_name location : str) : list str :=
  [ py "Counting tokens for model: " ++ model_name ++ py " in " ++ location
      ++ py "...";
    repeat 45%N 30 ].

(** What lines 16 and 24-25 print. *)
Definition file_not_found (file_path : str) : list str :=
  [ cross_mark :: py " Error: Dataset file not found at path: " ++ file_path ].

Definition environment_missing : list str :=
  [ cross_mark :: py " Error: GCP_PROJECT or GCP_LOCATION environment variables are missing.";
    py "Ensure they are set in the workflow YAML (e.g., env: GCP_PROJECT: ${{ secrets.GCP_PROJECT_ID }})." ].

(** ** The records the script accepts

    What the shape of a record has to be for lines 52-62 to go through, and
    the texts they collect. *)

(** A content entry is an object.  Without parts, or with parts that count
    as false (an empty list, [null], ...), it gives no text; otherwise its
    parts are a list that starts with an object, of which [text] is taken. *)
Inductive entry_texts : json → list json → Prop :=
| entry_without_parts c :
    truthy (default JNull (dict_lookup c (py "parts"))) = false →
    entry_texts (JDict c) []
| entry_with_parts c p ps text :
    dict_lookup c (py "parts") = Some (JList (JDict p :: ps)) →
    dict_lookup p (py "text") = Some text →
    entry_texts (JDict c) [text].

(** The system instruction may be absent, or an object without parts; if it
    has parts, they are a list that starts with an object, whose [text]
    (the empty string when absent) is taken unless it counts as false. *)
Inductive system_texts : list (str * json) → list json → Prop :=
| system_absent d :
    dict_lookup d (py "systemInstruction") = None →
    system_texts d []
| system_without_parts d si :
    dict_lookup d (py "systemInstruction") = Some (JDict si) →
    dict_lookup si (py "parts") = None →
    system_texts d []
| system_with_parts d si p ps text :
    dict_lookup d (py "systemInstruction") = Some (JDict si) →
    dict_lookup si (py "parts") = Some (JList (JDict p :: ps)) →
    default (JStr []) (dict_lookup p (py "text")) = text →
    system_texts d (if truthy text then [text] else []).

(** The contents may be absent, a list of entries, or an empty string or
    an empty object, over which the loop makes no turn. *)
Inductive contents_items : list (str * json) → list json → Prop :=
| contents_absent d :
    dict_lookup d (py "contents") = None → contents_items d []
| contents_list d items :
    dict_lookup d (py "contents") = Some (JList items) → contents_items d items
| contents_empty_string d :
    dict_lookup d (py "contents") = Some (JStr []) → contents_items d []
| contents_empty_object d :
    dict_lookup d (py "contents") = Some (JDict []) → contents_items d [].

(** What lines 35-36 print. *)
Definition client_failed (rt : runtime) (e : exn) : list str :=
  [ cross_mark :: py " Error initializing GenAI client. Check project/location and WIF token scope.";
    exn_str rt e ].

(** ** More sample data *)

Definition line_array : str := py "[1, 2]".

(** [sample_loads], and an array. *)
Definition array_loads (line : str) : result json :=
  if decide (line = line_array) then Ok (JList [JInt 1; JInt 2])
  else sample_loads line.

Definition array_rt : runtime :=
  Runtime array_loads (λ p l, Ok (Client p l)) sample_count sample_exn_str.

(** A service that answers the first call and refuses the next ones. *)
Definition quota_count (cl : client) (history : list call) (model_name : str)
    (contents : list json) : result Z :=
  match history with
  | [] => Ok 5
  | _ :: _ => Raise (APIError (py "429 RESOURCE_EXHAUSTED"))
  end.

Definition quota_rt : runtime :=
  Runtime sample_loads (λ p l, Ok (Client p l)) quota_count sample_exn_str.

(** A service whose first answer cannot be decoded by the client library. *)
Definition garbled_count (cl : client) (history : list call) (model_name : str)
    (contents : list json) : result Z :=
  match history with
  | [] => Raise (JSONDecodeError (py "Expecting value"))
  | _ :: _ => Ok 7
  end.

Definition garbled_rt : runtime :=
  Runtime sample_loads (λ p l, Ok (Client p l)) garbled_count sample_exn_str.

(** No credentials: the client cannot be built. *)
Definition no_client_rt : runtime :=
  Runtime sample_loads
    (λ p l, Raise (OtherException (py "DefaultCredentialsError")))
    sample_count sample_exn_str.

(** A world where the path of the data set is a directory. *)
Definition with_directory : world :=
  World {[ default_path := FsDir ]} sample_environ.

(** ** Following a run line by line *)

(** What a line asks of the service: the texts of its record, when it is
    not blank, decodes and has its fields in place. *)
Definition request_of (rt : runtime) (line : str) : option (list json) :=
  if nonblank line then
    match json_loads rt (strip line) with
    | Ok data =>
        match extract_texts data with
        | Ok texts => Some texts
        | Raise _ => None
        end
    | Raise _ => None
    end
  else None.

(** The calls [new], made after the calls [before], were each sent with the
    model name and answered by the service as it stood then. *)
Fixpoint served (rt : runtime) (cl : client) (model_name : str)
    (before new : list call) : Prop :=
  match new with
  | [] => True
  | c :: new' =>
      call_model c = model_name
      ∧ call_response c
        = count_tokens rt cl before model_name (call_contents c)
      ∧ served rt cl model_name (before ++ [c]) new'
  end.

(** What a run prints last when it ends inside the loop: the message of
    line 80, or the two of lines 76-77. *)
Definition fatal_tail (rt : runtime) (tail : list str) : Prop :=
  (∃ e, tail = [unexpected_message rt e])
  ∨ (∃ n msg, tail = [api_error_message n; exn_str rt (APIError msg)]).



(** An integer literal of 5000 digits, over the limit of 4300 digits that
    the conversion to [int] sets: [json.loads] raises [ValueError], which is
    not a [JSONDecodeError]. *)
Definition line_digits : str := N.iter 5000 (cons 49%N) [].

Definition digits_loads (line : str) : result json :=
  if decide (line = line_digits)
  then Raise (OtherException (py "Exceeds the limit (4300 digits) for integer string conversion: value has 5000 digits; use sys.set_int_max_str_digits() to increase the limit"))
  else sample_loads line.

Definition digits_rt : runtime :=
  Runtime digits_loads (λ p l, Ok (Client p l)) sample_count sample_exn_str.

(** A record, the long integer, a record. *)
Definition digits_lines : list str :=
  [eol line_hi; eol line_digits; eol line_hi].


(** * Properties *)

(** ** Whitespace *)

Lemma lstrip_nil (s : str) : lstrip s = [] ↔ forallb isspace_char s = true.
Proof.
  induction s as [|c s IH]; simpl; [done|].
  destruct (isspace_char c); simpl; [done|]. split; discriminate.
Qed.

Lemma lstrip_head (s : str) :
  lstrip s = [] ∨ ∃ c t, lstrip s = c :: t ∧ isspace_char c = false.
Proof.
  induction s as [|c s IH]; simpl; [by left|].
  destruct (isspace_char c) eqn:Hc; [done|]. right. by exists c, s.
Qed.

Lemma forallb_isspace_reverse (s : str) :
  forallb isspace_char (reverse s) = forallb isspace_char s.
Proof.
  induction s as [|c s IH]; simpl; [done|].
  rewrite reverse_cons, forallb_app, IH. simpl. rewrite andb_true_r.
  apply andb_comm.
Qed.

(** A line is blank, that is empty once stripped, exactly when it holds
    nothing but whitespace. *)
Lemma strip_nil (s : str) : strip s = [] ↔ forallb isspace_char s = true.
Proof.
  unfold strip, rstrip. split.
  - intros H. apply (f_equal reverse) in H. rewrite reverse_involutive in H.
    rewrite reverse_nil in H. apply lstrip_nil in H.
    rewrite forallb_isspace_reverse in H.
    destruct (lstrip_head s) as [Hs|(c & t & Hs & Hc)].
    + by apply lstrip_nil.
    + rewrite Hs in H. simpl in H. rewrite Hc in H. discriminate.
  - intros H. apply lstrip_nil in H. by rewrite H.
Qed.

Lemma isspace_spec (s : str) :
  isspace s = true ↔ s ≠ [] ∧ ∀ c, c ∈ s → isspace_char c = true.
Proof.
  destruct s as [|c s]; simpl.
  - split; [discriminate|]. by intros [? _].
  - change (isspace_char c && forallb isspace_char s) with
      (forallb isspace_char (c :: s)).
    rewrite forallb_forall. split.
    + intros H. split; [done|]. intros x Hx. apply H. by apply list_elem_of_In.
    + intros [_ H] x Hx. apply H. by apply list_elem_of_In.
Qed.

(** ** Printed integers can be read back *)

Lemma uint_of_digits_of_uint (d : Decimal.uint) :
  uint_of_digits (digits_of_uint d) = Some d.
Proof. induction d; simpl; rewrite ?IHd; done. Qed.

Lemma digits_no_comma (d : Decimal.uint) :
  Forall (λ c, c ≠ comma) (digits_of_uint d).
Proof. induction d; simpl; constructor; done. Qed.

Lemma digits_head (d : Decimal.uint) :
  d ≠ Nil → ∃ c t, digits_of_uint d = c :: t ∧ (c =? minus_sign)%N = false.
Proof. destruct d; [done|..]; intros _; simpl; eauto. Qed.

Lemma group3_filter (ds : str) (k : nat) :
  Forall (λ c, c ≠ comma) ds →
  filter (λ c, c ≠ comma) (group3 ds k) = ds.
Proof.
  intros H. revert k. induction H as [|d ds Hd _ IH]; intros k; simpl; [done|].
  destruct k as [|[|[|[|k]]]]; simpl;
    rewrite ?(filter_cons_False _ comma) by (intros ?; done);
    rewrite (filter_cons_True _ d) by done; by rewrite IH.
Qed.

Lemma filter_id_Forall {A} (P : A → Prop) `{!∀ x, Decision (P x)} (l : list A) :
  Forall P l → filter P l = l.
Proof.
  induction 1 as [|x l Hx _ IH]; [done|].
  by rewrite filter_cons_True, IH.
Qed.

Lemma abs_digits_no_comma (n : Z) : Forall (λ c, c ≠ comma) (abs_digits n).
Proof. unfold abs_digits. destruct (Z.to_int n); apply digits_no_comma. Qed.

Lemma format_comma_filter (n : Z) :
  filter (λ c, c ≠ comma) (format_comma n) = str_of_int n.
Proof.
  unfold format_comma, str_of_int. rewrite filter_app. f_equal.
  - unfold sign_of. destruct (n <? 0); [|done]. by rewrite filter_cons_True.
  - rewrite filter_reverse, group3_filter, reverse_involutive; [done|].
    apply Forall_reverse, abs_digits_no_comma.
Qed.

Lemma int_of_str_of_int (n : Z) : int_of_str (str_of_int n) = Some n.
Proof.
  unfold str_of_int, sign_of, abs_digits.
  pose proof (DecimalZ.of_to n) as Hn.
  destruct n as [|p|p].
  - done.
  - change (Z.to_int (Z.pos p)) with (Pos (Pos.to_uint p)) in *.
    change (Z.pos p <? 0) with false. cbv iota. rewrite app_nil_l.
    destruct (digits_head _ (DecimalPos.Unsigned.to_uint_nonnil p))
      as (c & t & Ht & Hc).
    unfold int_of_str. rewrite Ht, Hc, <- Ht, uint_of_digits_of_uint.
    simpl. by f_equal.
  - change (Z.to_int (Z.neg p)) with (Neg (Pos.to_uint p)) in *.
    change (Z.neg p <? 0) with true. cbv iota.
    unfold int_of_str. simpl app. change (minus_sign =? minus_sign)%N with true.
    cbv iota. rewrite uint_of_digits_of_uint. simpl. by f_equal.
Qed.

Lemma read_comma_format_comma (n : Z) : read_comma (format_comma n) = Some n.
Proof. unfold read_comma. rewrite format_comma_filter. apply int_of_str_of_int. Qed.

(** ** One line *)

Section Loop.

Context (rt : runtime) (cl : client) (model_name : str).

Lemma nonblank_strip (line : str) : nonblank line = false ↔ strip line = [].
Proof. unfold nonblank. by destruct (strip line). Qed.

Lemma py_get_raises v k d e : py_get v k d = Raise e → shape_error e = true.
Proof. destruct v; simpl; intros [= <-]; done. Qed.

Lemma py_index0_raises v e : py_index0 v = Raise e → shape_error e = true.
Proof.
  destruct v as [| | | |[|??]|[|??]|]; simpl; intros [= <-]; done.
Qed.

Lemma py_getitem_raises v k e : py_getitem v k = Raise e → shape_error e = true.
Proof.
  destruct v; simpl; try (intros [= <-]; done).
  destruct (dict_lookup _ _); intros [= <-]; done.
Qed.

Lemma py_iter_raises v e : py_iter v = Raise e → shape_error e = true.
Proof. destruct v; simpl; intros [= <-]; done. Qed.

Lemma collect_texts_raises contents acc e :
  collect_texts contents acc = Raise e → shape_error e = true.
Proof.
  revert acc. induction contents as [|content rest IH]; intros acc H; simpl in H.
  - discriminate.
  - unfold mbind, result_bind in H.
    destruct (py_get content (py "parts") JNull) eqn:E1;
      [|injection H as <-; by eapply py_get_raises].
    destruct (truthy a); [|by eapply IH].
    destruct (py_getitem content (py "parts")) eqn:E2;
      [|injection H as <-; by eapply py_getitem_raises].
    destruct (py_index0 a0) eqn:E3;
      [|injection H as <-; by eapply py_index0_raises].
    destruct (py_getitem a1 (py "text")) eqn:E4;
      [|injection H as <-; by eapply py_getitem_raises].
    by eapply IH.
Qed.

(** Field extraction fails with an error of the interpreter only: never with
    one of the two classes the loop treats apart. *)
Lemma extract_texts_raises data e :
  extract_texts data = Raise e → shape_error e = true.
Proof.
  unfold extract_texts, mbind, result_bind. intros H.
  destruct (py_get data (py "systemInstruction") (JDict [])) eqn:E1;
    [|injection H as <-; by eapply py_get_raises].
  destruct (py_get a (py "parts") (JList [JDict []])) eqn:E2;
    [|injection H as <-; by eapply py_get_raises].
  destruct (py_index0 a0) eqn:E3;
    [|injection H as <-; by eapply py_index0_raises].
  destruct (py_get a1 (py "text") (JStr [])) eqn:E4;
    [|injection H as <-; by eapply py_get_raises].
  destruct (py_get data (py "contents") (JList [])) eqn:E5;
    [|injection H as <-; by eapply py_get_raises].
  destruct (py_iter a3) eqn:E6;
    [|injection H as <-; by eapply py_iter_raises].
  by eapply collect_texts_raises.
Qed.

Lemma handle_shape_error st e :
  shape_error e = true →
  handle rt st e = Stop (print st (unexpected_message rt e)) (SysExit 1).
Proof. by destruct e. Qed.

Lemma process_line_blank st line :
  strip line = [] → process_line rt cl model_name st line = Continue st.
Proof. unfold process_line. by intros ->. Qed.

Lemma process_line_decode_error st line e :
  strip line ≠ [] →
  json_loads rt (strip line) = Raise e →
  process_line rt cl model_name st line = handle rt st e.
Proof.
  intros Hne He. unfold process_line, try_count.
  destruct (strip line) eqn:Hs; [done|]. simpl. by rewrite He.
Qed.

Lemma process_line_extract_error st line data e :
  strip line ≠ [] →
  json_loads rt (strip line) = Ok data →
  extract_texts data = Raise e →
  process_line rt cl model_name st line
  = Stop (print st (unexpected_message rt e)) (SysExit 1).
Proof.
  intros Hne Hd He. unfold process_line, try_count.
  destruct (strip line) eqn:Hs; [done|]. simpl. rewrite Hd. simpl.
  rewrite He. by apply handle_shape_error, (extract_texts_raises data).
Qed.

Lemma process_line_call st line data texts :
  strip line ≠ [] →
  json_loads rt (strip line) = Ok data →
  extract_texts data = Ok texts →
  process_line rt cl model_name st line
  = let response := count_tokens rt cl (calls st) model_name texts in
    let st' := log_call st (Call model_name texts response) in
    match response with
    | Ok n => Continue (add_response st' n)
    | Raise e => handle rt st' e
    end.
Proof.
  intros Hne Hd He. unfold process_line, try_count.
  destruct (strip line) eqn:Hs; [done|]. simpl. rewrite Hd. simpl.
  by rewrite He.
Qed.

(** ** The loop *)

Lemma counted_records_app cs1 cs2 :
  counted_records (cs1 ++ cs2) = (counted_records cs1 + counted_records cs2)%nat.
Proof. unfold counted_records. by rewrite filter_app, length_app. Qed.

Lemma tokens_returned_app cs1 cs2 :
  tokens_returned (cs1 ++ cs2) = tokens_returned cs1 + tokens_returned cs2.
Proof.
  unfold tokens_returned. induction cs1 as [|c cs1 IH]; simpl; [done|].
  rewrite IH. lia.
Qed.

Lemma effect_refl st : effect st st [] [].
Proof.
  unfold effect. rewrite !app_nil_r. unfold counted_records, tokens_returned.
  simpl. repeat split; lia.
Qed.

Lemma effect_trans st1 st2 st3 new1 out1 new2 out2 :
  effect st1 st2 new1 out1 → effect st2 st3 new2 out2 →
  effect st1 st3 (new1 ++ new2) (out1 ++ out2).
Proof.
  intros (Hc1 & Ho1 & He1 & Ht1) (Hc2 & Ho2 & He2 & Ht2). unfold effect.
  rewrite Hc2, Hc1, Ho2, Ho1, He2, He1, Ht2, Ht1.
  rewrite counted_records_app, tokens_returned_app, !app_assoc.
  repeat split; lia.
Qed.

Lemma effect_print st s : effect st (print st s) [] [s].
Proof.
  unfold effect, print. simpl. rewrite app_nil_r.
  unfold counted_records, tokens_returned. simpl. repeat split; lia.
Qed.

Lemma effect_counted st m texts n :
  effect st (add_response (log_call st (Call m texts (Ok n))) n)
         [Call m texts (Ok n)] [].
Proof.
  unfold effect, add_response, log_call. simpl. rewrite app_nil_r.
  unfold counted_records, tokens_returned, response_tokens. simpl.
  repeat split; lia.
Qed.

Lemma effect_failed_call st m texts e :
  effect st (log_call st (Call m texts (Raise e))) [Call m texts (Raise e)] [].
Proof.
  unfold effect, log_call. simpl. rewrite app_nil_r.
  unfold counted_records, tokens_returned, response_tokens. simpl.
  repeat split; lia.
Qed.

(** A handler prints, and does nothing else; when the loop goes on, what it
    printed is the warning. *)
Lemma handle_effect st e :
  ∃ out, effect st (step_state (handle rt st e)) [] out
         ∧ (∀ st', handle rt st e = Continue st' → Forall skip_warning out).
Proof.
  destruct e; simpl.
  - eexists. split; [apply effect_print|]. intros _ _.
    constructor; [by eexists|constructor].
  - exists [api_error_message (total_examples st + 1); exn_str rt (APIError msg)].
    split; [|intros ? [=]].
    eapply (effect_trans _ _ _ [] [_] [] [_]); apply effect_print.
  - eexists; split; [apply effect_print|intros ? [=]].
  - eexists; split; [apply effect_print|intros ? [=]].
  - eexists; split; [apply effect_print|intros ? [=]].
  - eexists; split; [apply effect_print|intros ? [=]].
  - eexists; split; [apply effect_print|intros ? [=]].
Qed.

Lemma decodes_blank line : strip line = [] → decodes rt line = false.
Proof. intros H. unfold decodes. by rewrite (proj2 (nonblank_strip line) H). Qed.

Lemma decodes_error line e :
  json_loads rt (strip line) = Raise e → decodes rt line = false.
Proof. intros H. unfold decodes. rewrite H. apply andb_false_r. Qed.

Lemma decodes_ok line data :
  strip line ≠ [] → json_loads rt (strip line) = Ok data → decodes rt line = true.
Proof.
  intros Hne H. unfold decodes. rewrite H.
  destruct (nonblank line) eqn:Hb; [done|]. by apply nonblank_strip in Hb.
Qed.

(** What one turn of the loop does: at most one call, and only for a line
    that decodes; exactly one when the loop goes on after such a line. *)
Lemma process_line_effect st line :
  let s := process_line rt cl model_name st line in
  let d := if decodes rt line then 1%nat else 0%nat in
  ∃ new out,
    effect st (step_state s) new out
    ∧ (length new ≤ d)%nat
    ∧ (∀ st', s = Continue st' → length new = d ∧ Forall skip_warning out).
Proof.
  intros s d. subst s d.
  destruct (decide (strip line = [])) as [Hb|Hb].
  { rewrite process_line_blank, decodes_blank by done.
    exists [], []. split; [apply effect_refl|]. by split. }
  destruct (json_loads rt (strip line)) as [data|e] eqn:Hd.
  2:{ rewrite (process_line_decode_error _ _ e), (decodes_error _ e) by done.
      destruct (handle_effect st e) as (out & Heff & Hout).
      exists [], out. split; [done|]. split; [done|].
      intros st' H. split; [done|]. by eapply Hout. }
  rewrite (decodes_ok _ data) by done.
  destruct (extract_texts data) as [texts|e] eqn:He.
  2:{ rewrite (process_line_extract_error _ _ data e) by done.
      exists [], [unexpected_message rt e]. split; [apply effect_print|].
      split; [simpl; lia|]. intros ? [=]. }
  rewrite (process_line_call _ _ data texts) by done. cbv zeta.
  destruct (count_tokens rt cl (calls st) model_name texts) as [n|e].
  - exists [Call model_name texts (Ok n)], []. split; [apply effect_counted|].
    split; [done|]. intros _ _. split; [done|constructor].
  - destruct (handle_effect (log_call st (Call model_name texts (Raise e))) e)
      as (out & Heff & Hout).
    exists [Call model_name texts (Raise e)], out.
    split; [|split; [done|]].
    + eapply (effect_trans _ _ _ [_] [] [] out); [apply effect_failed_call|done].
    + intros st' H. split; [done|]. by eapply Hout.
Qed.

Lemma decoded_count_cons line lines :
  decoded_count rt (line :: lines)
  = ((if decodes rt line then 1 else 0) + decoded_count rt lines)%nat.
Proof.
  unfold decoded_count. destruct (decodes rt line) eqn:E.
  - rewrite filter_cons_True; [done|]. rewrite E. exact I.
  - rewrite filter_cons_False; [done|]. rewrite E. intros [].
Qed.

(** The same for a whole run of the loop. *)
Lemma run_lines_effect lines st :
  let s := run_lines rt cl model_name st lines in
  ∃ new out,
    effect st (step_state s) new out
    ∧ (length new ≤ decoded_count rt lines)%nat
    ∧ (∀ st', s = Continue st' →
         length new = decoded_count rt lines ∧ Forall skip_warning out).
Proof.
  revert st. induction lines as [|line lines IH]; intros st; simpl.
  - exists [], []. split; [apply effect_refl|]. split; [done|].
    intros _ _. split; [done|constructor].
  - rewrite decoded_count_cons.
    destruct (process_line_effect st line) as (new1 & out1 & Heff1 & Hle1 & Hc1).
    destruct (process_line rt cl model_name st line) as [st1|st1 t] eqn:Hp.
    + destruct (IH st1) as (new2 & out2 & Heff2 & Hle2 & Hc2).
      destruct (Hc1 st1 eq_refl) as [Hn1 Ho1].
      exists (new1 ++ new2), (out1 ++ out2).
      split; [by eapply effect_trans|].
      rewrite length_app. split; [lia|].
      intros st' H. destruct (Hc2 st' H) as [Hn2 Ho2].
      split; [lia|]. by apply Forall_app.
    + exists new1, out1. split; [done|]. split; [lia|]. intros ? [=].
Qed.

Lemma run_lines_app lines1 lines2 st :
  run_lines rt cl model_name st (lines1 ++ lines2)
  = match run_lines rt cl model_name st lines1 with
    | Continue st' => run_lines rt cl model_name st' lines2
    | Stop st' t => Stop st' t
    end.
Proof.
  revert st. induction lines1 as [|line lines1 IH]; intros st; simpl; [done|].
  destruct (process_line rt cl model_name st line); [apply IH|done].
Qed.

Lemma handle_stop st e st' t : handle rt st e = Stop st' t → t = SysExit 1.
Proof. destruct e; simpl; intros [=]; done. Qed.

Lemma process_line_stop st line st' t :
  process_line rt cl model_name st line = Stop st' t → t = SysExit 1.
Proof.
  unfold process_line. destruct (negb _); [intros [=]|].
  destruct (try_count _ _ _ _ _) as [st1 [n|e]]; [intros [=]|].
  apply handle_stop.
Qed.

(** The loop ends the process in one way only: [sys.exit(1)]. *)
Lemma run_lines_stop lines st st' t :
  run_lines rt cl model_name st lines = Stop st' t → t = SysExit 1.
Proof.
  revert st. induction lines as [|line lines IH]; intros st; simpl; [intros [=]|].
  destruct (process_line rt cl model_name st line) eqn:Hp; [apply IH|].
  intros [= <- <-]. by eapply process_line_stop.
Qed.

End Loop.

(** ** Start-up *)

Section Startup.

Context (rt : runtime) (w : world) (file_path model_name : str).

(** When the checks pass: the file is there, both variables are set and not
    empty, the client is built from them, the counters are zero, no call has
    been made and the header is all that was printed. *)
Lemma startup_started cl st :
  startup rt w file_path model_name = inl (Started cl st) →
  ∃ node project_id location,
    files w !! file_path = Some node
    ∧ environ w !! py "GCP_PROJECT" = Some project_id ∧ project_id ≠ []
    ∧ environ w !! py "GCP_LOCATION" = Some location ∧ location ≠ []
    ∧ genai_Client rt project_id location = Ok cl
    ∧ st = State 0 0 [] (header model_name location).
Proof.
  unfold startup, os_path_exists. case_bool_decide as Hf; simpl; [|done].
  destruct Hf as [node Hf].
  destruct (environ w !! py "GCP_PROJECT") as [[|c1 p]|] eqn:Hp; simpl; try done.
  destruct (environ w !! py "GCP_LOCATION") as [[|c2 l]|] eqn:Hl; simpl; try done.
  destruct (genai_Client rt (c1 :: p) (c2 :: l)) as [cl'|e] eqn:Hc; [|done].
  intros [= <- <-]. exists node, (c1 :: p), (c2 :: l). by repeat split.
Qed.

Lemma startup_ok project_id location cl node :
  files w !! file_path = Some node →
  environ w !! py "GCP_PROJECT" = Some project_id → project_id ≠ [] →
  environ w !! py "GCP_LOCATION" = Some location → location ≠ [] →
  genai_Client rt project_id location = Ok cl →
  startup rt w file_path model_name
  = inl (Started cl (State 0 0 [] (header model_name location))).
Proof.
  intros Hf Hp Hpne Hl Hlne Hc. unfold startup, os_path_exists.
  rewrite bool_decide_eq_true_2 by (by eexists). simpl.
  rewrite Hp, Hl. destruct project_id; [done|]. destruct location; [done|].
  simpl. by rewrite Hc.
Qed.

(** When a check fails, the process ends there: exit code 1, no call. *)
Lemma startup_stopped st t :
  startup rt w file_path model_name = inr (st, t) →
  t = SysExit 1 ∧ calls st = [] ∧ total_tokens st = 0 ∧ total_examples st = 0.
Proof.
  unfold startup. destruct (negb _); [by intros [= <- <-]|].
  destruct (_ || _); [by intros [= <- <-]|].
  destruct (genai_Client _ _ _); [done|]. by intros [= <- <-].
Qed.

End Startup.

(** ** Blank lines and lines that are not JSON *)

(** C4.  A line that is empty once stripped of whitespace changes nothing:
    the loop goes on in the very same state, so neither counter moves, no
    call is made and nothing is printed. *)
Theorem blank_line_changes_nothing rt cl model_name st line rest :
  strip line = [] →
  process_line rt cl model_name st line = Continue st
  ∧ run_lines rt cl model_name st (line :: rest)
    = run_lines rt cl model_name st rest.
Proof.
  intros H. split; [by apply process_line_blank|].
  simpl. by rewrite process_line_blank.
Qed.

Lemma blank_line_changes_nothing_witness :
  strip [32; 9; newline]%N = []
  ∧ process_line sample_rt sample_client default_model init_state
      [32; 9; newline]%N = Continue init_state
  ∧ run_lines sample_rt sample_client default_model init_state
      ([32; 9; newline]%N :: [eol line_hi])
    = run_lines sample_rt sample_client default_model init_state [eol line_hi].
Proof.
  split; [reflexivity|].
  apply (blank_line_changes_nothing sample_rt sample_client default_model
           init_state [32; 9; newline]%N [eol line_hi]).
  reflexivity.
Defined.

(** C3, as the script has it.  A non-blank line on which [json.loads]
    raises [json.JSONDecodeError] is skipped: the loop goes on to the next
    lines, both counters and the calls made are as before, and the one thing
    printed is the warning, [Skipping line n: Invalid JSON format. Run
    schema validator!], where [n] reads as the example counter plus one.
    When decoding fails with an exception of another class the line is not
    skipped: the run ends there with exit code 1, counters and calls as they
    were. *)
Theorem invalid_json_is_skipped rt cl model_name st line rest :
  strip line ≠ [] →
  (∀ msg,
     json_loads rt (strip line) = Raise (JSONDecodeError msg) →
     ∃ st' shown,
       process_line rt cl model_name st line = Continue st'
       ∧ total_examples st' = total_examples st
       ∧ total_tokens st' = total_tokens st
       ∧ calls st' = calls st
       ∧ stdout st'
         = stdout st
           ++ [py "Skipping line " ++ shown
               ++ py ": Invalid JSON format. Run schema validator!"]
       ∧ int_of_str shown = Some (total_examples st + 1)
       ∧ run_lines rt cl model_name st (line :: rest)
         = run_lines rt cl model_name st' rest)
  ∧ (∀ e,
       json_loads rt (strip line) = Raise e →
       (∀ msg, e ≠ JSONDecodeError msg) →
       ∃ st',
         run_lines rt cl model_name st (line :: rest) = Stop st' (SysExit 1)
         ∧ total_examples st' = total_examples st
         ∧ total_tokens st' = total_tokens st
         ∧ calls st' = calls st).
Proof.
  intros Hne. split.
  - intros msg Hd. eexists _, (str_of_int (total_examples st + 1)).
    split; [by rewrite (process_line_decode_error _ _ _ _ _ _ Hne Hd)|].
    cbn [handle print total_examples total_tokens calls stdout run_lines].
    rewrite (process_line_decode_error _ _ _ _ _ _ Hne Hd).
    repeat split; try done. apply int_of_str_of_int.
  - intros e Hd Hclass. cbn [run_lines].
    rewrite (process_line_decode_error _ _ _ _ _ _ Hne Hd).
    destruct e; try (by eexists); by destruct (Hclass msg).
Qed.

Lemma invalid_json_is_skipped_witness :
  (∃ st',
     process_line sample_rt sample_client default_model init_state
       (eol line_garbled) = Continue st'
     ∧ calls st' = []
     ∧ stdout st'
       = [py "Skipping line 1: Invalid JSON format. Run schema validator!"]
     ∧ run_lines sample_rt sample_client default_model init_state
         (eol line_garbled :: [eol line_hi])
       = run_lines sample_rt sample_client default_model st' [eol line_hi])
  ∧ ∃ st',
      run_lines digits_rt sample_client default_model init_state
        (eol line_digits :: [eol line_hi]) = Stop st' (SysExit 1)
      ∧ calls st' = [].
Proof.
  split.
  - destruct (proj1 (invalid_json_is_skipped sample_rt sample_client
                       default_model init_state (eol line_garbled) [eol line_hi]
                       ltac:(vm_compute; discriminate))
                (py "Expecting value") eq_refl)
      as (st' & shown & Hstep & _ & _ & Hcalls & Hout & _ & Hrun).
    exists st'. split; [exact Hstep|]. split; [exact Hcalls|].
    split; [|exact Hrun].
    vm_compute in Hstep. injection Hstep as <-. reflexivity.
  - destruct (proj2 (invalid_json_is_skipped digits_rt sample_client
                       default_model init_state (eol line_digits) [eol line_hi]
                       (proj1 (not_iff_compat (nonblank_strip (eol line_digits)))
                          ltac:(vm_compute; discriminate)))
                _ ltac:(vm_compute; reflexivity) ltac:(discriminate))
      as (st' & Hrun & _ & _ & Hcalls).
    exists st'. split; [exact Hrun|exact Hcalls].
Defined.

(** Decoding can fail without the line being skipped: on the integer of
    5000 digits [json.loads] raises [ValueError]; the run ends at that line
    with exit code 1, prints no warning, and never looks at the record after
    it. *)
Lemma decoding_failure_can_end_the_run :
  nonblank (eol line_digits) = true
  ∧ decodes digits_rt (eol line_digits) = false
  ∧ (∃ e, json_loads digits_rt (strip (eol line_digits)) = Raise e)
  ∧ (∀ st', process_line digits_rt sample_client default_model init_state
              (eol line_digits) ≠ Continue st')
  ∧ (count_tokens_in_jsonl digits_rt (with_file digits_lines) default_path
       default_model).2 = SysExit 1
  ∧ length (calls (count_tokens_in_jsonl digits_rt (with_file digits_lines)
                     default_path default_model).1) = 1%nat.
Proof.
  split; [by vm_compute|]. split; [by vm_compute|].
  split; [eexists; by vm_compute|]. split; [|split; by vm_compute].
  intros st' H.
  assert (E : process_line digits_rt sample_client default_model init_state
                (eol line_digits)
              = Stop (print init_state
                        (unexpected_message digits_rt
                           (OtherException (py "Exceeds the limit (4300 digits) for integer string conversion: value has 5000 digits; use sys.set_int_max_str_digits() to increase the limit"))))
                     (SysExit 1)) by (by vm_compute).
  rewrite E in H. discriminate H.
Qed.

(** ** The checks before the loop *)

Lemma run_before_loop rt w file_path model_name st t :
  startup rt w file_path model_name = inr (st, t) →
  count_tokens_in_jsonl rt w file_path model_name = (st, t).
Proof. unfold count_tokens_in_jsonl. by intros ->. Qed.

(** C5.  When the file does not exist, or one of [GCP_PROJECT] and
    [GCP_LOCATION] is unset or empty, the process exits with code 1, which
    is not zero; no call has been made, the counters are zero, and the only
    output is the error message of the check that failed: no line of the
    file has been looked at. *)
Theorem missing_file_or_environment_aborts rt w file_path model_name :
  files w !! file_path = None
  ∨ environ w !! py "GCP_PROJECT" = None
  ∨ environ w !! py "GCP_PROJECT" = Some []
  ∨ environ w !! py "GCP_LOCATION" = None
  ∨ environ w !! py "GCP_LOCATION" = Some [] →
  ∃ st t,
    count_tokens_in_jsonl rt w file_path model_name = (st, t)
    ∧ exit_code t ≠ 0
    ∧ calls st = []
    ∧ total_examples st = 0 ∧ total_tokens st = 0
    ∧ (stdout st = file_not_found file_path ∨ stdout st = environment_missing).
Proof.
  intros H.
  destruct (files w !! file_path) as [node|] eqn:Hf.
  - assert (Henv : env_missing (environ w !! py "GCP_PROJECT")
                   || env_missing (environ w !! py "GCP_LOCATION") = true).
    { destruct H as [H|[H|[H|[H|H]]]]; [done|rewrite H..]; simpl;
        by rewrite ?orb_true_r. }
    eexists _, _. split.
    + apply run_before_loop. unfold startup, os_path_exists.
      rewrite Hf, bool_decide_eq_true_2 by (by eexists). simpl.
      by rewrite Henv.
    + simpl. repeat split; try done. by right.
  - eexists _, _. split.
    + apply run_before_loop. unfold startup, os_path_exists.
      rewrite Hf, bool_decide_eq_false_2 by (by intros [? ?]). done.
    + simpl. repeat split; try done. by left.
Qed.

Lemma missing_file_or_environment_aborts_witness :
  (files (with_file clean_lines) !! py "nowhere.jsonl" = None
   ∨ environ (with_file clean_lines) !! py "GCP_PROJECT" = None
   ∨ environ (with_file clean_lines) !! py "GCP_PROJECT" = Some []
   ∨ environ (with_file clean_lines) !! py "GCP_LOCATION" = None
   ∨ environ (with_file clean_lines) !! py "GCP_LOCATION" = Some [])
  ∧ ∃ st t,
      count_tokens_in_jsonl sample_rt (with_file clean_lines)
        (py "nowhere.jsonl") default_model = (st, t)
      ∧ exit_code t ≠ 0
      ∧ calls st = []
      ∧ total_examples st = 0 ∧ total_tokens st = 0
      ∧ (stdout st = file_not_found (py "nowhere.jsonl")
         ∨ stdout st = environment_missing).
Proof.
  split; [left; reflexivity|].
  apply (missing_file_or_environment_aborts sample_rt (with_file clean_lines)
           (py "nowhere.jsonl") default_model).
  left. reflexivity.
Defined.

(** ** The command line *)

(** C8.  Without the positional argument, or with one that is the empty
    string or nothing but whitespace, the script works on
    [data/training.jsonl]; with any other argument, on that very path. *)
Theorem path_defaults_when_blank rt w (file_path model : option str) :
  (file_path = None
   ∨ file_path = Some []
   ∨ (∃ s, file_path = Some s ∧ s ≠ [] ∧ ∀ c, c ∈ s → isspace_char c = true) →
   main rt w file_path model
   = count_tokens_in_jsonl rt w (py "data/training.jsonl")
       (default default_model model))
  ∧ (∀ s c, file_path = Some s → c ∈ s → isspace_char c = false →
     main rt w file_path model
     = count_tokens_in_jsonl rt w s (default default_model model)).
Proof.
  unfold main, parse_args, file_to_check. simpl. split.
  - intros [->|[->|(s & -> & Hne & Hs)]]; simpl; [done..|].
    destruct s as [|c s]; [done|]. simpl negb. rewrite orb_false_l.
    by rewrite (proj2 (isspace_spec (c :: s))).
  - intros s c -> Hc Hsp. simpl.
    destruct s as [|c' s]; [by apply elem_of_nil in Hc|]. simpl negb.
    rewrite orb_false_l.
    destruct (isspace (c' :: s)) eqn:E; [|done].
    apply isspace_spec in E as [_ E]. rewrite (E c Hc) in Hsp. discriminate.
Qed.

Lemma path_defaults_when_blank_witness :
  main sample_rt (with_file clean_lines) (Some [32; 9]%N) None
  = count_tokens_in_jsonl sample_rt (with_file clean_lines)
      (py "data/training.jsonl") (default default_model None)
  ∧ main sample_rt (with_file clean_lines) (Some (py "my data.jsonl")) None
    = count_tokens_in_jsonl sample_rt (with_file clean_lines)
        (py "my data.jsonl") (default default_model None).
Proof.
  split.
  - apply (proj1 (path_defaults_when_blank sample_rt (with_file clean_lines)
                    (Some [32; 9]%N) None)).
    right. right. exists [32; 9]%N. split; [reflexivity|].
    split; [discriminate|]. intros c Hc.
    apply elem_of_cons in Hc as [->|Hc]; [reflexivity|].
    apply elem_of_cons in Hc as [->|Hc]; [reflexivity|].
    by apply elem_of_nil in Hc.
  - apply (proj2 (path_defaults_when_blank sample_rt (with_file clean_lines)
                    (Some (py "my data.jsonl")) None)
             (py "my data.jsonl") 109%N); [reflexivity| |reflexivity].
    apply list_elem_of_here.
Defined.

(** ** A whole run *)

(** The ways a run ends: at a check; at [open]; inside the loop; or after
    the report. *)
Lemma run_cases rt w file_path model_name st t :
  count_tokens_in_jsonl rt w file_path model_name = (st, t) →
  startup rt w file_path model_name = inr (st, t)
  ∨ ∃ cl st0,
      startup rt w file_path model_name = inl (Started cl st0)
      ∧ ((∃ e, open_lines w file_path = Raise e ∧ st = st0 ∧ t = Uncaught e)
         ∨ ∃ lines,
             open_lines w file_path = Ok lines
             ∧ (run_lines rt cl model_name st0 lines = Stop st t
                ∨ ∃ st1,
                    run_lines rt cl model_name st0 lines = Continue st1
                    ∧ st = final_report file_path st1 ∧ t = Completed)).
Proof.
  unfold count_tokens_in_jsonl.
  destruct (startup rt w file_path model_name) as [[cl st0]|[st' t']].
  2:{ intros [= <- <-]. by left. }
  intros H. right. exists cl, st0. split; [done|].
  destruct (open_lines w file_path) as [lines|e].
  2:{ injection H as <- <-. left. by exists e. }
  right. exists lines. split; [done|].
  destruct (run_lines rt cl model_name st0 lines) as [st1|st1 t1].
  - injection H as <- <-. right. by exists st1.
  - injection H as <- <-. by left.
Qed.

(** A run that ends with [Completed] went through the loop and printed the
    report. *)
Lemma run_completed rt w file_path model_name st :
  count_tokens_in_jsonl rt w file_path model_name = (st, Completed) →
  ∃ cl st0 lines st1,
    startup rt w file_path model_name = inl (Started cl st0)
    ∧ open_lines w file_path = Ok lines
    ∧ run_lines rt cl model_name st0 lines = Continue st1
    ∧ st = final_report file_path st1.
Proof.
  intros H. destruct (run_cases _ _ _ _ _ _ H) as [Hs|(cl & st0 & Hs & Hrest)].
  - by destruct (startup_stopped _ _ _ _ _ _ Hs) as [? _].
  - destruct Hrest as [(e & _ & _ & ?)|(lines & Ho & Hrun)]; [done|].
    destruct Hrun as [Hstop|(st1 & Hc & -> & _)].
    + by apply run_lines_stop in Hstop.
    + by exists cl, st0, lines, st1.
Qed.

Lemma open_lines_ok w file_path lines :
  open_lines w file_path = Ok lines ↔ files w !! file_path = Some (FsFile lines).
Proof.
  unfold open_lines. destruct (files w !! file_path) as [[l|]|]; split;
    intros [=]; by subst.
Qed.

(** C2.  In a run that reaches the final report, the output ends with the
    line of the total, the line of the estimate and a rule, and the number
    the estimate line shows is exactly three times the number the total
    line shows (which is the token counter). *)
Theorem estimate_is_three_times_total rt w file_path model_name st :
  count_tokens_in_jsonl rt w file_path model_name = (st, Completed) →
  ∃ before shown_total shown_estimate total,
    stdout st
    = before ++ [ py "Total Training Tokens: " ++ shown_total;
                  py "Estimated Tokens (3 Epochs): " ++ shown_estimate;
                  rule ]
    ∧ read_comma shown_total = Some total
    ∧ read_comma shown_estimate = Some (3 * total)
    ∧ total = total_tokens st.
Proof.
  intros H. destruct (run_completed _ _ _ _ _ H) as (cl & st0 & lines & st1 & _ & _ & _ & ->).
  exists (stdout st1 ++ take 5 (report_lines file_path (total_examples st1)
                                  (total_tokens st1))),
    (format_comma (total_tokens st1)), (format_comma (total_tokens st1 * 3)),
    (total_tokens st1).
  split; [by rewrite <- app_assoc|].
  split; [apply read_comma_format_comma|].
  split; [|done].
  rewrite read_comma_format_comma. f_equal. lia.
Qed.

Lemma estimate_is_three_times_total_witness :
  ∃ before shown_total shown_estimate total,
    stdout (count_tokens_in_jsonl sample_rt (with_file mixed_lines)
              default_path default_model).1
    = before ++ [ py "Total Training Tokens: " ++ shown_total;
                  py "Estimated Tokens (3 Epochs): " ++ shown_estimate;
                  rule ]
    ∧ read_comma shown_total = Some total
    ∧ read_comma shown_estimate = Some (3 * total)
    ∧ total
      = total_tokens (count_tokens_in_jsonl sample_rt (with_file mixed_lines)
                        default_path default_model).1.
Proof.
  apply (estimate_is_three_times_total sample_rt (with_file mixed_lines)
           default_path default_model).
  vm_compute. reflexivity.
Defined.

(** ** Files of well-formed records *)

Section Clean.

Context (rt : runtime) (cl : client) (model_name : str).

Lemma well_formed_inv line :
  well_formed rt line = true →
  ∃ data texts,
    json_loads rt (strip line) = Ok data ∧ extract_texts data = Ok texts.
Proof.
  unfold well_formed. destruct (json_loads rt (strip line)) as [data|]; [|done].
  destruct (extract_texts data) as [texts|] eqn:He; [|done].
  by exists data, texts.
Qed.

Lemma nonblank_count_cons line lines :
  nonblank_count (line :: lines)
  = ((if nonblank line then 1 else 0) + nonblank_count lines)%nat.
Proof.
  unfold nonblank_count. destruct (nonblank line) eqn:E.
  - rewrite filter_cons_True; [done|]. rewrite E. exact I.
  - rewrite filter_cons_False; [done|]. rewrite E. intros [].
Qed.

Lemma decoded_count_clean lines :
  (∀ line, line ∈ lines → nonblank line = true → well_formed rt line = true) →
  decoded_count rt lines = nonblank_count lines.
Proof.
  induction lines as [|line lines IH]; intros H; [done|].
  rewrite decoded_count_cons, nonblank_count_cons, IH.
  2:{ intros l Hl. apply H. by right. }
  f_equal. unfold decodes. destruct (nonblank line) eqn:E; [|done].
  destruct (well_formed_inv line) as (data & texts & -> & _); [|done].
  apply H; [left|done].
Qed.

Lemma counted_records_all_ok cs :
  Forall (λ c, ok_response c = true) cs → counted_records cs = length cs.
Proof.
  intros H. unfold counted_records. f_equal. apply filter_id_Forall.
  eapply Forall_impl; [done|]. simpl. by intros c ->.
Qed.

Lemma run_lines_calls lines st :
  ∃ new, calls (step_state (run_lines rt cl model_name st lines))
         = calls st ++ new.
Proof.
  destruct (run_lines_effect rt cl model_name lines st)
    as (new & out & (H & _) & _). by exists new.
Qed.

(** When every non-blank line holds a well-formed record and no call of the
    run failed, the loop runs to the end of the file and prints nothing. *)
Lemma run_lines_clean lines st :
  (∀ line, line ∈ lines → nonblank line = true → well_formed rt line = true) →
  Forall (λ c, ok_response c = true)
         (calls (step_state (run_lines rt cl model_name st lines))) →
  ∃ st', run_lines rt cl model_name st lines = Continue st'
         ∧ stdout st' = stdout st.
Proof.
  revert st. induction lines as [|line lines IH]; intros st Hwf Hok.
  { by exists st. }
  assert (Hwf' : ∀ l, l ∈ lines → nonblank l = true → well_formed rt l = true).
  { intros l Hl. apply Hwf. by right. }
  simpl in *. destruct (nonblank line) eqn:Hb.
  2:{ apply nonblank_strip in Hb.
      rewrite (process_line_blank rt cl model_name st line Hb) in *. by apply IH. }
  assert (Hne : strip line ≠ []).
  { intros Hs. apply nonblank_strip in Hs. congruence. }
  destruct (well_formed_inv line) as (data & texts & Hd & He).
  { apply Hwf; [left|done]. }
  rewrite (process_line_call rt cl model_name st line data texts Hne Hd He) in *.
  cbv zeta in *.
  destruct (count_tokens rt cl (calls st) model_name texts) as [n|e].
  - destruct (IH _ Hwf' Hok) as (st' & Hrun & Hout). by exists st'.
  - exfalso.
    set (c := Call model_name texts (Raise e)) in *.
    assert (Hc : c ∈ calls (step_state
              match handle rt (log_call st c) e with
              | Continue st' => run_lines rt cl model_name st' lines
              | Stop st' t => Stop st' t
              end)).
    { destruct (handle_effect rt (log_call st c) e) as (out & (Hcalls & _) & _).
      rewrite app_nil_r in Hcalls.
      destruct (handle rt (log_call st c) e) as [st2|st2 t2]; simpl in *.
      - destruct (run_lines_calls lines st2) as (new & ->).
        rewrite Hcalls. set_solver.
      - rewrite Hcalls. set_solver. }
    rewrite Forall_forall in Hok. by specialize (Hok c Hc).
Qed.

End Clean.

(** Take a run that passes the start-up checks, on a file whose
    non-blank lines all hold well-formed records, and in which every call to
    the service returned a count.  It reaches the final report; the service
    was called once per non-blank line; the example count, in the counter
    and in the report, is the number of non-blank lines, and the token
    count, in the counter and in the report, is the sum of the counts the
    service returned. *)
Lemma clean_file_totals rt w file_path model_name cl st0 lines st t :
  startup rt w file_path model_name = inl (Started cl st0) →
  files w !! file_path = Some (FsFile lines) →
  (∀ line, line ∈ lines → nonblank line = true → well_formed rt line = true) →
  count_tokens_in_jsonl rt w file_path model_name = (st, t) →
  Forall (λ c, ok_response c = true) (calls st) →
  t = Completed
  ∧ length (calls st) = nonblank_count lines
  ∧ total_examples st = Z.of_nat (nonblank_count lines)
  ∧ total_tokens st = tokens_returned (calls st)
  ∧ ∃ before,
      stdout st
      = before ++ report_lines file_path (Z.of_nat (nonblank_count lines))
                    (tokens_returned (calls st)).
Proof.
  intros Hs Hf Hwf Hrun Hok.
  destruct (startup_started _ _ _ _ _ _ Hs)
    as (node & pid & loc & _ & _ & _ & _ & _ & _ & Hst0).
  apply open_lines_ok in Hf. unfold count_tokens_in_jsonl in Hrun.
  rewrite Hs, Hf in Hrun.
  assert (Hcalls : calls st
                   = calls (step_state (run_lines rt cl model_name st0 lines))).
  { destruct (run_lines rt cl model_name st0 lines); by injection Hrun as <- <-. }
  rewrite Hcalls in Hok.
  destruct (run_lines_clean rt cl model_name lines st0 Hwf Hok) as (st1 & H1 & Hout).
  destruct (run_lines_effect rt cl model_name lines st0)
    as (new & out & (Hc & _ & He & Ht) & _ & Hcont).
  rewrite H1 in *. simpl in *. injection Hrun as <- <-.
  destruct (Hcont st1 eq_refl) as [Hlen _].
  rewrite (decoded_count_clean rt lines Hwf) in Hlen.
  subst st0. simpl in *. subst new.
  rewrite (counted_records_all_ok _ Hok), Hlen in He.
  split; [done|]. split; [done|]. split; [done|]. split; [done|].
  exists (stdout st1). unfold final_report. simpl. by rewrite He, Ht.
Qed.

(** C1.  Take a run that passes the start-up checks, on a file whose
    non-blank lines all hold well-formed records, and in which every call to
    the service returned a count.  It reaches the final report, after one
    call per non-blank line.  The output ends with the eight lines of the
    report, among them [Total Examples: ] followed by a number that reads as
    the number of non-blank lines, and [Total Training Tokens: ] followed by
    a number that reads as the sum of the counts the service returned; the
    two counters hold the same two values. *)
Theorem totals_of_well_formed_file rt w file_path model_name cl st0 lines st t :
  startup rt w file_path model_name = inl (Started cl st0) →
  files w !! file_path = Some (FsFile lines) →
  (∀ line, line ∈ lines → nonblank line = true → well_formed rt line = true) →
  count_tokens_in_jsonl rt w file_path model_name = (st, t) →
  Forall (λ c, ok_response c = true) (calls st) →
  t = Completed
  ∧ length (calls st) = nonblank_count lines
  ∧ total_examples st = Z.of_nat (nonblank_count lines)
  ∧ total_tokens st = tokens_returned (calls st)
  ∧ ∃ before shown_examples shown_tokens shown_estimate,
      stdout st
      = before
        ++ [ 10%N :: py "==========================================";
             0x2728%N :: py " GEMINI TRAINING TOKEN ESTIMATE";
             py "==========================================";
             py "File: " ++ file_path;
             py "Total Examples: " ++ shown_examples;
             py "Total Training Tokens: " ++ shown_tokens;
             py "Estimated Tokens (3 Epochs): " ++ shown_estimate;
             py "==========================================" ]
      ∧ int_of_str shown_examples = Some (Z.of_nat (nonblank_count lines))
      ∧ read_comma shown_tokens = Some (tokens_returned (calls st))
      ∧ read_comma shown_estimate = Some (3 * tokens_returned (calls st)).
Proof.
  intros Hs Hf Hwf Hrun Hok.
  destruct (clean_file_totals rt w file_path model_name cl st0 lines st t
              Hs Hf Hwf Hrun Hok) as (Ht & Hn & He & Htok & before & Hout).
  split; [done|]. split; [done|]. split; [done|]. split; [done|].
  exists before, (str_of_int (Z.of_nat (nonblank_count lines))),
    (format_comma (tokens_returned (calls st))),
    (format_comma (tokens_returned (calls st) * 3)).
  split; [exact Hout|]. split; [apply int_of_str_of_int|].
  split; [apply read_comma_format_comma|].
  rewrite read_comma_format_comma. f_equal. lia.
Qed.

Lemma totals_of_well_formed_file_witness :
  ∃ st before,
    count_tokens_in_jsonl sample_rt (with_file clean_lines) default_path
      default_model = (st, Completed)
    ∧ length (calls st) = 2%nat
    ∧ total_examples st = 2
    ∧ total_tokens st = 12
    ∧ tokens_returned (calls st) = 12
    ∧ stdout st
      = before
        ++ [ 10%N :: py "==========================================";
             0x2728%N :: py " GEMINI TRAINING TOKEN ESTIMATE";
             py "==========================================";
             py "File: data/training.jsonl";
             py "Total Examples: 2";
             py "Total Training Tokens: 12";
             py "Estimated Tokens (3 Epochs): 36";
             py "==========================================" ].
Proof.
  pose proof (totals_of_well_formed_file sample_rt (with_file clean_lines)
                default_path default_model sample_client
                (State 0 0 [] (header default_model (py "us-central1")))
                clean_lines
                (count_tokens_in_jsonl sample_rt (with_file clean_lines)
                   default_path default_model).1
                (count_tokens_in_jsonl sample_rt (with_file clean_lines)
                   default_path default_model).2) as H.
  destruct H as (Ht & Hn & He & Htok & _).
  - reflexivity.
  - reflexivity.
  - intros line Hl Hb.
    apply elem_of_cons in Hl as [->|Hl]; [reflexivity|].
    apply elem_of_cons in Hl as [->|Hl]; [discriminate Hb|].
    apply elem_of_cons in Hl as [->|Hl]; [reflexivity|].
    by apply elem_of_nil in Hl.
  - reflexivity.
  - vm_compute. repeat constructor.
  - eexists _, (header default_model (py "us-central1")).
    split; [|split; [exact Hn|split; [exact He|split; [|split]]]].
    + rewrite <- Ht. reflexivity.
    + rewrite Htok. reflexivity.
    + reflexivity.
    + reflexivity.
Defined.

(** ** Calls to the service *)

Lemma process_line_calls rt cl model_name st line :
  ∃ new,
    calls (step_state (process_line rt cl model_name st line)) = calls st ++ new
    ∧ length new = if nonblank line && well_formed rt line then 1%nat else 0%nat.
Proof.
  destruct (decide (strip line = [])) as [Hb|Hb].
  { rewrite process_line_blank by done.
    rewrite (proj2 (nonblank_strip line) Hb). exists []. by rewrite app_nil_r. }
  assert (Hnb : nonblank line = true).
  { destruct (nonblank line) eqn:E; [done|]. by apply nonblank_strip in E. }
  rewrite Hnb. unfold well_formed. simpl.
  destruct (json_loads rt (strip line)) as [data|e] eqn:Hd.
  2:{ rewrite (process_line_decode_error _ _ _ _ _ e) by done.
      destruct (handle_effect rt st e) as (out & (Hc & _) & _). by exists []. }
  destruct (extract_texts data) as [texts|e] eqn:He.
  2:{ rewrite (process_line_extract_error _ _ _ _ _ data e) by done.
      exists []. simpl. by rewrite app_nil_r. }
  rewrite (process_line_call _ _ _ _ _ data texts) by done. cbv zeta.
  destruct (count_tokens rt cl (calls st) model_name texts) as [n|e].
  - by eexists [_].
  - destruct (handle_effect rt (log_call st (Call model_name texts (Raise e))) e)
      as (out & (Hc & _) & _).
    eexists [_]. rewrite Hc. simpl. by rewrite app_nil_r.
Qed.

(** C6, as the script has it.  A turn of the loop makes one call when the
    line is not blank, decodes and has its fields where the script reads
    them, and none otherwise.  Over a run, the calls made are never more
    than the lines that decode, and as many when the run reaches the final
    report. *)
Theorem calls_match_decoded_lines rt w file_path model_name lines st t :
  files w !! file_path = Some (FsFile lines) →
  count_tokens_in_jsonl rt w file_path model_name = (st, t) →
  (length (calls st) ≤ decoded_count rt lines)%nat
  ∧ (t = Completed → length (calls st) = decoded_count rt lines)
  ∧ (∀ cl st1 line, ∃ new,
       calls (step_state (process_line rt cl model_name st1 line))
       = calls st1 ++ new
       ∧ length new
         = if nonblank line && well_formed rt line then 1%nat else 0%nat).
Proof.
  intros Hf Hrun. split; [|split]; [| |intros; apply process_line_calls].
  - destruct (run_cases _ _ _ _ _ _ Hrun) as [Hs|(cl & st0 & Hs & Hrest)].
    { destruct (startup_stopped _ _ _ _ _ _ Hs) as (_ & -> & _). simpl. lia. }
    apply open_lines_ok in Hf. rewrite Hf in Hrest.
    destruct Hrest as [(e & ? & _)|(lines' & [= <-] & Hloop)]; [done|].
    destruct (startup_started _ _ _ _ _ _ Hs)
      as (_ & _ & loc & _ & _ & _ & _ & _ & _ & ->).
    destruct (run_lines_effect rt cl model_name lines
                (State 0 0 [] (header model_name loc)))
      as (new & out & (Hc & _) & Hle & _).
    simpl in Hc.
    destruct Hloop as [Hstop|(st1 & Hcont & -> & _)].
    + rewrite Hstop in Hc. simpl in Hc. by rewrite Hc.
    + rewrite Hcont in Hc. simpl in *. by rewrite Hc.
  - intros ->. destruct (run_completed _ _ _ _ _ Hrun)
      as (cl & st0 & lines' & st1 & Hs & Ho & Hcont & ->).
    apply open_lines_ok in Hf. rewrite Hf in Ho. injection Ho as <-.
    destruct (startup_started _ _ _ _ _ _ Hs)
      as (_ & _ & loc & _ & _ & _ & _ & _ & _ & ->).
    destruct (run_lines_effect rt cl model_name lines
                (State 0 0 [] (header model_name loc)))
      as (new & out & (Hc & _) & _ & Heq).
    rewrite Hcont in *. simpl in *. rewrite Hc. by apply (Heq st1).
Qed.

Lemma calls_match_decoded_lines_witness :
  (length (calls (count_tokens_in_jsonl sample_rt (with_file mixed_lines)
                    default_path default_model).1)
   ≤ decoded_count sample_rt mixed_lines)%nat
  ∧ length (calls (count_tokens_in_jsonl sample_rt (with_file mixed_lines)
                     default_path default_model).1)
    = decoded_count sample_rt mixed_lines.
Proof.
  destruct (calls_match_decoded_lines sample_rt (with_file mixed_lines)
              default_path default_model mixed_lines
              (count_tokens_in_jsonl sample_rt (with_file mixed_lines)
                 default_path default_model).1
              (count_tokens_in_jsonl sample_rt (with_file mixed_lines)
                 default_path default_model).2) as (Hle & Heq & _).
  - reflexivity.
  - reflexivity.
  - split; [exact Hle|]. apply Heq. reflexivity.
Defined.

(** The claim that every line that decodes gets its call does not hold: in
    this file three lines decode, the second has no text where the script
    reads it, and the run ends there, after one call. *)
Lemma one_call_per_decoded_line_fails :
  files (with_file broken_lines) !! default_path = Some (FsFile broken_lines)
  ∧ decoded_count sample_rt broken_lines = 3%nat
  ∧ length (calls (count_tokens_in_jsonl sample_rt (with_file broken_lines)
                     default_path default_model).1) = 1%nat
  ∧ (count_tokens_in_jsonl sample_rt (with_file broken_lines)
       default_path default_model).2 = SysExit 1
  ∧ length (calls (count_tokens_in_jsonl sample_rt (with_file broken_lines)
                     default_path default_model).1)
    ≠ decoded_count sample_rt broken_lines.
Proof. repeat split; try reflexivity. vm_compute. discriminate. Qed.

(** ** The number in the warning *)

(** In a run that has gone through the lines [before], a line that
    [json.loads] rejects is answered with a warning that names one plus the
    number [n] of records decoded and counted so far, and the run goes on.
    That number is not the position of the line in the file, which is one
    plus the number of lines before it: [n] is at most that number of lines,
    and smaller as soon as one of them was blank or did not decode. *)
Lemma warning_number
    rt w file_path model_name cl st0 before st line msg :
  startup rt w file_path model_name = inl (Started cl st0) →
  run_lines rt cl model_name st0 before = Continue st →
  strip line ≠ [] →
  json_loads rt (strip line) = Raise (JSONDecodeError msg) →
  let n := counted_records (calls st) in
  let warned := print st (skip_message (Z.of_nat n + 1)) in
  process_line rt cl model_name st line = Continue warned
  ∧ (∀ after, run_lines rt cl model_name st0 (before ++ line :: after)
              = run_lines rt cl model_name warned after)
  ∧ (n ≤ length before)%nat
  ∧ ((∃ l, l ∈ before ∧ decodes rt l = false) → (n < length before)%nat).
Proof.
  intros Hs Hrun Hne Hd n warned.
  destruct (startup_started _ _ _ _ _ _ Hs)
    as (_ & _ & loc & _ & _ & _ & _ & _ & _ & ->).
  destruct (run_lines_effect rt cl model_name before
              (State 0 0 [] (header model_name loc)))
    as (new & out & (Hc & _ & He & _) & _ & Hcont).
  rewrite Hrun in *. simpl in *.
  destruct (Hcont st eq_refl) as [Hlen _].
  assert (Hstep : process_line rt cl model_name st line = Continue warned).
  { rewrite (process_line_decode_error _ _ _ _ _ _ Hne Hd). simpl.
    subst warned n. by rewrite He, Hc. }
  assert (Hn : (n ≤ length new)%nat).
  { subst n. rewrite Hc. apply length_filter. }
  split; [done|]. split; [|split].
  - intros after. by rewrite run_lines_app, Hrun; simpl; rewrite Hstep.
  - rewrite Hlen in Hn. unfold decoded_count in Hn.
    pose proof (length_filter (decodes rt) before). lia.
  - intros (l & Hl & Hdec). rewrite Hlen in Hn. unfold decoded_count in Hn.
    assert ((length (filter (decodes rt) before) < length before)%nat); [|lia].
    apply (length_filter_lt _ _ l); [done|]. rewrite Hdec. intros [].
Qed.

(** C7.  In a run that has gone through the lines [before], a line on
    which [json.loads] raises [json.JSONDecodeError] gets the warning
    [Skipping line k: Invalid JSON format. Run schema validator!], printed
    last, and the run goes on with counters and calls as they were.  The
    number [k] shown reads as one plus the number [n] of records decoded and
    counted so far.  It is not the position of the line in the file, which
    is one plus the number of lines before it: [n] is at most that number of
    lines, and smaller as soon as one of them was blank or did not decode. *)
Theorem warning_names_counted_records
    rt w file_path model_name cl st0 before st line msg :
  startup rt w file_path model_name = inl (Started cl st0) →
  run_lines rt cl model_name st0 before = Continue st →
  strip line ≠ [] →
  json_loads rt (strip line) = Raise (JSONDecodeError msg) →
  let n := counted_records (calls st) in
  ∃ warned shown,
    process_line rt cl model_name st line = Continue warned
    ∧ stdout warned
      = stdout st
        ++ [py "Skipping line " ++ shown
            ++ py ": Invalid JSON format. Run schema validator!"]
    ∧ int_of_str shown = Some (Z.of_nat n + 1)
    ∧ calls warned = calls st
    ∧ total_examples warned = total_examples st
    ∧ total_tokens warned = total_tokens st
    ∧ (∀ after, run_lines rt cl model_name st0 (before ++ line :: after)
                = run_lines rt cl model_name warned after)
    ∧ (n ≤ length before)%nat
    ∧ ((∃ l, l ∈ before ∧ decodes rt l = false) → (n < length before)%nat).
Proof.
  intros Hs Hrun Hne Hd n.
  destruct (warning_number rt w file_path model_name cl st0 before st line msg
              Hs Hrun Hne Hd) as (Hstep & Hafter & Hle & Hlt).
  exists (print st (skip_message (Z.of_nat n + 1))),
    (str_of_int (Z.of_nat n + 1)).
  split; [exact Hstep|]. split; [reflexivity|].
  split; [apply int_of_str_of_int|]. by repeat split.
Qed.

Lemma warning_names_counted_records_witness :
  ∃ st warned,
    run_lines sample_rt sample_client default_model
      (State 0 0 [] (header default_model (py "us-central1")))
      [eol line_hi; [newline]] = Continue st
    ∧ process_line sample_rt sample_client default_model st (eol line_garbled)
      = Continue warned
    ∧ stdout warned
      = header default_model (py "us-central1")
        ++ [py "Skipping line 2: Invalid JSON format. Run schema validator!"]
    ∧ (1 < length [eol line_hi; [newline]])%nat.
Proof.
  destruct (warning_names_counted_records sample_rt (with_file mixed_lines)
              default_path default_model sample_client
              (State 0 0 [] (header default_model (py "us-central1")))
              [eol line_hi; [newline]]
              (State 5 1 [Call default_model [JStr (py "hi")] (Ok 5)]
                 (header default_model (py "us-central1")))
              (eol line_garbled) (py "Expecting value"))
    as (warned & shown & Hstep & _ & _ & _ & _ & _ & _ & _ & Hlt).
  - reflexivity.
  - reflexivity.
  - vm_compute. discriminate.
  - reflexivity.
  - eexists _, warned. split; [reflexivity|]. split; [exact Hstep|].
    split.
    + vm_compute in Hstep. injection Hstep as <-. reflexivity.
    + apply Hlt. exists [newline]. split; [|reflexivity].
      apply list_elem_of_further, list_elem_of_here.
Defined.

(** ** The two counters *)

Section Counters.

Context (rt : runtime) (cl : client) (model_name : str).

(** One turn of the loop: the counters move together, by the count the
    service returned and by one, when the line was parsed and counted; they
    stay as they are otherwise. *)
Lemma process_line_counters st line :
  let st' := step_state (process_line rt cl model_name st line) in
  match counted_response rt cl model_name st line with
  | Some n =>
      total_tokens st' = total_tokens st + n
      ∧ total_examples st' = total_examples st + 1
  | None =>
      total_tokens st' = total_tokens st
      ∧ total_examples st' = total_examples st
  end.
Proof.
  unfold counted_response. simpl.
  destruct (nonblank line) eqn:Hb.
  2:{ apply nonblank_strip in Hb. by rewrite process_line_blank. }
  assert (Hne : strip line ≠ []).
  { intros Hs. apply nonblank_strip in Hs. congruence. }
  destruct (json_loads rt (strip line)) as [data|e] eqn:Hd.
  2:{ rewrite (process_line_decode_error _ _ _ _ _ e) by done.
      destruct (handle_effect rt st e) as (out & (_ & _ & He & Ht) & _).
      rewrite He, Ht. unfold counted_records, tokens_returned. simpl. lia. }
  destruct (extract_texts data) as [texts|e] eqn:He.
  2:{ by rewrite (process_line_extract_error _ _ _ _ _ data e). }
  rewrite (process_line_call _ _ _ _ _ data texts) by done. cbv zeta.
  destruct (count_tokens rt cl (calls st) model_name texts) as [n|e]; [done|].
  destruct (handle_effect rt (log_call st (Call model_name texts (Raise e))) e)
    as (out & (_ & _ & He' & Ht') & _).
  rewrite He', Ht'. unfold counted_records, tokens_returned. simpl. lia.
Qed.

Lemma counted_response_from_service st line n :
  counted_response rt cl model_name st line = Some n →
  ∃ texts, count_tokens rt cl (calls st) model_name texts = Ok n.
Proof.
  unfold counted_response. destruct (nonblank line); [|done].
  destruct (json_loads rt (strip line)) as [data|]; [|done].
  destruct (extract_texts data) as [texts|]; [|done].
  destruct (count_tokens rt cl (calls st) model_name texts) eqn:E; [|done].
  intros [= <-]. by exists texts.
Qed.

Lemma process_line_monotone st line :
  let st' := step_state (process_line rt cl model_name st line) in
  total_examples st ≤ total_examples st'
  ∧ ((∀ c h m texts n, count_tokens rt c h m texts = Ok n → 0 ≤ n) →
     total_tokens st ≤ total_tokens st').
Proof.
  pose proof (process_line_counters st line) as H. simpl in *.
  destruct (counted_response rt cl model_name st line) as [n|] eqn:E.
  - destruct H as [Ht He]. split; [lia|]. intros Hpos.
    destruct (counted_response_from_service _ _ _ E) as (texts & Hn).
    pose proof (Hpos _ _ _ _ _ Hn). lia.
  - destruct H as [Ht He]. split; [lia|]. intros _. lia.
Qed.

Lemma run_lines_monotone lines st :
  let st' := step_state (run_lines rt cl model_name st lines) in
  total_examples st ≤ total_examples st'
  ∧ ((∀ c h m texts n, count_tokens rt c h m texts = Ok n → 0 ≤ n) →
     total_tokens st ≤ total_tokens st').
Proof.
  revert st. induction lines as [|line lines IH]; intros st; simpl; [done|].
  pose proof (process_line_monotone st line) as [He Ht]. simpl in *.
  destruct (process_line rt cl model_name st line) as [st1|st1 t1]; simpl in *.
  - destruct (IH st1) as [He' Ht']. split; [lia|].
    intros Hpos. specialize (Ht Hpos). specialize (Ht' Hpos). lia.
  - done.
Qed.

End Counters.

(** At the end of any run, each counter is what the calls that returned a
    count account for, each of them once. *)
Lemma run_accounting rt w file_path model_name st t :
  count_tokens_in_jsonl rt w file_path model_name = (st, t) →
  total_examples st = Z.of_nat (counted_records (calls st))
  ∧ total_tokens st = tokens_returned (calls st).
Proof.
  intros Hrun.
  destruct (run_cases _ _ _ _ _ _ Hrun) as [Hs|(cl & st0 & Hs & Hrest)].
  { by destruct (startup_stopped _ _ _ _ _ _ Hs) as (_ & -> & -> & ->). }
  destruct (startup_started _ _ _ _ _ _ Hs)
    as (_ & _ & loc & _ & _ & _ & _ & _ & _ & ->).
  destruct Hrest as [(e & _ & -> & _)|(lines & _ & Hloop)]; [done|].
  destruct (run_lines_effect rt cl model_name lines
              (State 0 0 [] (header model_name loc)))
    as (new & out & (Hc & _ & He & Ht) & _). simpl in *.
  destruct Hloop as [Hstop|(st1 & Hcont & -> & _)].
  - rewrite Hstop in *. simpl in *. by rewrite Hc, He, Ht.
  - rewrite Hcont in *. simpl in *. by rewrite Hc, He, Ht.
Qed.

(** C9.  The counters are zero when the loop starts.  A turn of the loop
    moves both together and once, by the count the service returned and by
    one, when the line was parsed and counted, and leaves both as they were
    otherwise.  However far the loop runs from any state, the example
    counter has not gone down, nor has the token counter as long as the
    service returns counts that are not negative.  At the end of a run each
    counter is what the counted records account for. *)
Theorem counters_lifecycle rt :
  (∀ w file_path model_name cl st0,
     startup rt w file_path model_name = inl (Started cl st0) →
     total_tokens st0 = 0 ∧ total_examples st0 = 0)
  ∧ (∀ cl model_name st line,
       let st' := step_state (process_line rt cl model_name st line) in
       match counted_response rt cl model_name st line with
       | Some n =>
           total_tokens st' = total_tokens st + n
           ∧ total_examples st' = total_examples st + 1
       | None =>
           total_tokens st' = total_tokens st
           ∧ total_examples st' = total_examples st
       end)
  ∧ (∀ cl model_name st lines,
       let st' := step_state (run_lines rt cl model_name st lines) in
       total_examples st ≤ total_examples st'
       ∧ ((∀ c h m texts n, count_tokens rt c h m texts = Ok n → 0 ≤ n) →
          total_tokens st ≤ total_tokens st'))
  ∧ (∀ w file_path model_name st t,
       count_tokens_in_jsonl rt w file_path model_name = (st, t) →
       total_examples st = Z.of_nat (counted_records (calls st))
       ∧ total_tokens st = tokens_returned (calls st)).
Proof.
  split; [|split; [|split]].
  - intros w file_path model_name cl st0 Hs.
    by destruct (startup_started _ _ _ _ _ _ Hs)
      as (_ & _ & loc & _ & _ & _ & _ & _ & _ & ->).
  - intros. apply process_line_counters.
  - intros. apply run_lines_monotone.
  - intros. by eapply run_accounting.
Qed.

Lemma counters_lifecycle_witness :
  total_tokens (State 0 0 [] []) ≤
  total_tokens (step_state (run_lines sample_rt sample_client default_model
                              (State 0 0 [] []) mixed_lines))
  ∧ total_tokens (step_state (run_lines sample_rt sample_client default_model
                                (State 0 0 [] []) mixed_lines)) = 12.
Proof.
  split; [|reflexivity].
  apply (proj1 (proj2 (proj2 (counters_lifecycle sample_rt)))
           sample_client default_model (State 0 0 [] []) mixed_lines).
  intros c h m texts n [= <-]. lia.
Defined.

(** ** Records out of shape *)

Lemma collect_texts_step content rest acc :
  (∃ e, collect_texts (content :: rest) acc = Raise e)
  ∨ ∃ acc', collect_texts (content :: rest) acc = collect_texts rest acc'.
Proof.
  cbn [collect_texts]. unfold mbind, result_bind.
  destruct (py_get content (py "parts") JNull); [|left; by eexists].
  destruct (truthy a); [|right; by eexists].
  destruct (py_getitem content (py "parts")); [|left; by eexists].
  destruct (py_index0 a0); [|left; by eexists].
  destruct (py_getitem a1 (py "text")); [|left; by eexists].
  right. by eexists.
Qed.

Lemma collect_texts_part_without_text items acc c p ps :
  JDict c ∈ items →
  dict_lookup c (py "parts") = Some (JList (JDict p :: ps)) →
  dict_lookup p (py "text") = None →
  ∃ e, collect_texts items acc = Raise e.
Proof.
  intros Hin Hparts Htext. revert acc.
  induction items as [|content rest IH]; intros acc.
  { by apply elem_of_nil in Hin. }
  apply elem_of_cons in Hin as [<-|Hin].
  - exists KeyError. cbn [collect_texts]. unfold mbind, result_bind.
    cbn [py_get py_getitem]. rewrite Hparts. cbn [default from_option id truthy].
    cbn [py_index0 py_getitem]. by rewrite Htext.
  - destruct (collect_texts_step content rest acc) as [[e He]|[acc' He]].
    + by exists e.
    + rewrite He. by apply IH.
Qed.

(** Both shapes make field extraction raise. *)
Lemma malformed_raises data : malformed data → ∃ e, extract_texts data = Raise e.
Proof.
  intros [d si Hsi Hparts|d items c p ps Hcontents Hin Hparts Htext];
    unfold extract_texts, mbind, result_bind.
  - exists IndexError. cbn [py_get]. rewrite Hsi.
    cbn [default from_option id py_get]. by rewrite Hparts.
  - destruct (py_get (JDict d) (py "systemInstruction") (JDict []));
      [|by eexists].
    destruct (py_get a (py "parts") (JList [JDict []])); [|by eexists].
    destruct (py_index0 a0); [|by eexists].
    destruct (py_get a1 (py "text") (JStr [])); [|by eexists].
    cbn [py_get]. rewrite Hcontents. cbn [default from_option id py_iter].
    by eapply collect_texts_part_without_text.
Qed.

Lemma not_banner (s : str) : head s ≠ Some sparkles → s ≠ banner.
Proof. intros H ->. by apply H. Qed.

Lemma skip_warning_not_banner s : skip_warning s → s ≠ banner.
Proof. intros [n ->]. by apply not_banner. Qed.

Lemma header_no_banner model_name location : banner ∉ header model_name location.
Proof.
  unfold header. rewrite !not_elem_of_cons. split; [|split].
  - intros E. symmetry in E. by apply not_banner in E.
  - intros E. symmetry in E. by apply not_banner in E.
  - apply not_elem_of_nil.
Qed.

Lemma unexpected_message_not_banner rt e : unexpected_message rt e ≠ banner.
Proof. by apply not_banner. Qed.

(** C10.  A non-blank line that decodes to a record out of shape (a system
    instruction whose list of parts is empty, or a content entry whose
    non-empty list of parts starts with an object without text) ends the
    run: field extraction raises; the process exits with code 1, which is
    not zero; no call is made for the line; and the final report, told by
    its banner, is not printed.  The line is not skipped the way a line that
    fails to decode is. *)
Theorem malformed_record_is_fatal
    rt w file_path model_name cl st0 before line after st data :
  startup rt w file_path model_name = inl (Started cl st0) →
  files w !! file_path = Some (FsFile (before ++ line :: after)) →
  run_lines rt cl model_name st0 before = Continue st →
  strip line ≠ [] →
  json_loads rt (strip line) = Ok data →
  malformed data →
  ∃ e st',
    extract_texts data = Raise e
    ∧ process_line rt cl model_name st line = Stop st' (SysExit 1)
    ∧ count_tokens_in_jsonl rt w file_path model_name = (st', SysExit 1)
    ∧ exit_code (SysExit 1) ≠ 0
    ∧ calls st' = calls st
    ∧ stdout st' = stdout st ++ [unexpected_message rt e]
    ∧ banner ∉ stdout st'.
Proof.
  intros Hs Hf Hrun Hne Hd Hbad.
  destruct (malformed_raises data Hbad) as [e He].
  exists e, (print st (unexpected_message rt e)).
  pose proof (process_line_extract_error rt cl model_name st line data e
                Hne Hd He) as Hstep.
  split; [done|]. split; [done|]. split; [|split; [done|split; [done|split; [done|]]]].
  - unfold count_tokens_in_jsonl. apply open_lines_ok in Hf.
    rewrite Hs, Hf, run_lines_app, Hrun. simpl. by rewrite Hstep.
  - destruct (startup_started _ _ _ _ _ _ Hs)
      as (_ & _ & loc & _ & _ & _ & _ & _ & _ & ->).
    destruct (run_lines_effect rt cl model_name before
                (State 0 0 [] (header model_name loc)))
      as (new & out & (_ & Hout & _) & _ & Hcont).
    rewrite Hrun in *. cbn [step_state stdout print] in *.
    destruct (Hcont st eq_refl) as [_ Hskip].
    rewrite Hout. rewrite !not_elem_of_app. split; [split|].
    + apply header_no_banner.
    + intros Hin. rewrite Forall_forall in Hskip.
      by apply (skip_warning_not_banner _ (Hskip _ Hin)).
    + rewrite not_elem_of_cons. split; [|apply not_elem_of_nil].
      intros E. symmetry in E. by apply unexpected_message_not_banner in E.
Qed.

Lemma malformed_record_is_fatal_witness :
  ∃ e st',
    extract_texts record_no_text = Raise e
    ∧ count_tokens_in_jsonl sample_rt (with_file broken_lines) default_path
        default_model = (st', SysExit 1)
    ∧ length (calls st') = 1%nat
    ∧ banner ∉ stdout st'.
Proof.
  destruct (malformed_record_is_fatal sample_rt (with_file broken_lines)
              default_path default_model sample_client
              (State 0 0 [] (header default_model (py "us-central1")))
              [eol line_hi] (eol line_no_text) [eol line_hi]
              (State 5 1 [Call default_model [JStr (py "hi")] (Ok 5)]
                 (header default_model (py "us-central1")))
              record_no_text)
    as (e & st' & He & _ & Hrun & _ & Hcalls & _ & Hbanner).
  - reflexivity.
  - reflexivity.
  - reflexivity.
  - vm_compute. discriminate.
  - reflexivity.
  - apply (part_without_text _
             [JDict [(py "parts", JList [JDict []])]]
             [(py "parts", JList [JDict []])] [] []).
    + reflexivity.
    + apply list_elem_of_here.
    + reflexivity.
    + reflexivity.
  - exists e, st'. split; [exact He|]. split; [exact Hrun|].
    split; [by rewrite Hcalls|exact Hbanner].
Defined.

(** ** Sample runs *)

Example format_comma_groups :
  format_comma 1234567 = py "1,234,567"
  ∧ format_comma (-1000) = py "-1,000"
  ∧ format_comma 999 = py "999"
  ∧ format_comma 0 = py "0".
Proof. by vm_compute. Qed.

(** One record and a blank line, 5 tokens for the record. *)
Example one_record_and_a_blank_line :
  let run := count_tokens_in_jsonl sample_rt (with_file [eol line_hi; [newline]])
               default_path default_model in
  run.2 = Completed
  ∧ drop 6 (stdout run.1)
    = [ py "Total Examples: 1";
        py "Total Training Tokens: 5";
        py "Estimated Tokens (3 Epochs): 15";
        rule ].
Proof. by vm_compute. Qed.

(** The warning for the third line of the file calls it line 2. *)
Example warning_in_mixed_file :
  (stdout (count_tokens_in_jsonl sample_rt (with_file mixed_lines)
             default_path default_model).1) !! 2%nat
  = Some (py "Skipping line 2: Invalid JSON format. Run schema validator!").
Proof. by vm_compute. Qed.

(** A system instruction without parts: the run ends at that line. *)
Example empty_system_parts_run :
  malformed record_no_parts
  ∧ count_tokens_in_jsonl sample_rt (with_file [eol line_no_parts; eol line_hi])
      default_path default_model
    = (State 0 0 []
         (header default_model (py "us-central1")
          ++ [py "An unexpected error occurred: list index out of range"]),
       SysExit 1).
Proof.
  split; [|by vm_compute].
  by apply (empty_system_parts _ [(py "parts", JList [])]).
Qed.

(** * More of the script *)

(** ** Which records go through *)

Lemma collect_texts_accepts items acc texts :
  collect_texts items acc = Ok texts ↔
  ∃ outs, Forall2 entry_texts items outs ∧ texts = acc ++ concat outs.
Proof.
  split.
  - revert acc. induction items as [|content rest IH]; intros acc H.
    { injection H as <-. exists []. split; [constructor|].
      by rewrite app_nil_r. }
    cbn [collect_texts] in H. unfold mbind, result_bind in H.
    destruct content as [| | | | |l|c]; try discriminate H.
    cbn [py_get] in H.
    destruct (truthy (default JNull (dict_lookup c (py "parts")))) eqn:Ht.
    2:{ destruct (IH _ H) as (outs & Hf & ->). exists ([] :: outs).
        split; [|done]. constructor; [by constructor|done]. }
    cbn [py_getitem] in H.
    destruct (dict_lookup c (py "parts")) as [parts|] eqn:Hp; [|discriminate H].
    destruct parts as [| | | |[|ch s]|[|part ps]|d]; try discriminate H.
    cbn [py_index0] in H.
    destruct part as [| | | | |l|p]; try discriminate H.
    cbn [py_getitem] in H.
    destruct (dict_lookup p (py "text")) as [text|] eqn:Htext; [|discriminate H].
    destruct (IH _ H) as (outs & Hf & ->). exists ([text] :: outs).
    split; [|by rewrite <- app_assoc].
    constructor; [by econstructor|done].
  - intros (outs & Hf & ->). revert acc.
    induction Hf as [|content out rest outs He _ IH]; intros acc.
    { by rewrite app_nil_r. }
    cbn [collect_texts concat]. unfold mbind, result_bind.
    destruct He as [c Ht|c p ps text Hp Htext]; cbn [py_get].
    + rewrite Ht. by rewrite IH.
    + rewrite Hp. cbn [default from_option id truthy py_getitem].
      rewrite Hp. cbn [py_index0 py_getitem]. rewrite Htext.
      rewrite IH. by rewrite <- app_assoc.
Qed.

Lemma system_instruction_accepts d text :
  (si ← py_get (JDict d) (py "systemInstruction") (JDict []);
   parts ← py_get si (py "parts") (JList [JDict []]);
   part ← py_index0 parts;
   py_get part (py "text") (JStr [])) = Ok text →
  system_texts d (if truthy text then [text] else []).
Proof.
  unfold mbind, result_bind. cbn [py_get].
  destruct (dict_lookup d (py "systemInstruction")) as [si|] eqn:Hsi;
    cbn [default from_option id py_get dict_lookup py_index0].
  2:{ intros [= <-]. by apply system_absent. }
  destruct si as [| | | | |l|si]; try discriminate. cbn [py_get].
  destruct (dict_lookup si (py "parts")) as [parts|] eqn:Hparts;
    cbn [default from_option id py_get dict_lookup py_index0].
  2:{ intros [= <-]. by eapply system_without_parts. }
  destruct parts as [| | | |[|ch s]|[|part ps]|d']; try discriminate.
  cbn [py_index0]. destruct part as [| | | | |l|p]; try discriminate.
  cbn [py_get]. intros [= <-]. by eapply system_with_parts.
Qed.

Lemma system_instruction_accepted d sys :
  system_texts d sys →
  ∃ text,
    (si ← py_get (JDict d) (py "systemInstruction") (JDict []);
     parts ← py_get si (py "parts") (JList [JDict []]);
     part ← py_index0 parts;
     py_get part (py "text") (JStr [])) = Ok text
    ∧ sys = if truthy text then [text] else [].
Proof.
  unfold mbind, result_bind. cbn [py_get].
  intros [d' Hsi|d' si Hsi Hparts|d' si p ps text Hsi Hparts Htext]; rewrite Hsi;
    cbn [default from_option id py_get dict_lookup py_index0].
  - by exists (JStr []).
  - rewrite Hparts. cbn [default from_option id py_get dict_lookup py_index0].
    by exists (JStr []).
  - rewrite Hparts. cbn [default from_option id py_get dict_lookup py_index0].
    exists text. by rewrite Htext.
Qed.

Lemma contents_accepts d texts acc :
  (items ← py_iter (default (JList []) (dict_lookup d (py "contents")));
   collect_texts items acc) = Ok texts →
  ∃ items, contents_items d items ∧ collect_texts items acc = Ok texts.
Proof.
  unfold mbind, result_bind.
  destruct (dict_lookup d (py "contents")) as [contents|] eqn:Hc;
    cbn [default from_option id py_iter].
  2:{ intros H. exists []. split; [by constructor|done]. }
  destruct contents as [| | | |[|ch s]|l|[|[k v] d']]; try discriminate;
    cbn [py_iter map].
  - intros H. exists []. split; [by apply contents_empty_string|done].
  - intros H. exists l. split; [by apply contents_list|done].
  - intros H. exists []. split; [by apply contents_empty_object|done].
Qed.

(** X1.  The records whose fields the script can read, and what it reads
    from them.  Field extraction succeeds exactly on an object whose system
    instruction, contents and content entries have the shapes above; the
    texts it collects are the text of the system instruction, if there is
    one that does not count as false, followed by the text of the first part
    of each content entry that has parts, in the order of the entries.  The
    other parts of an entry, and its other fields, play no role. *)
Theorem accepted_records data texts :
  extract_texts data = Ok texts ↔
  ∃ d sys items outs,
    data = JDict d
    ∧ system_texts d sys
    ∧ contents_items d items
    ∧ Forall2 entry_texts items outs
    ∧ texts = sys ++ concat outs.
Proof.
  split.
  - intros H. destruct data as [| | | | |l|d]; try discriminate H.
    exists d. unfold extract_texts in H.
    destruct (si ← py_get (JDict d) (py "systemInstruction") (JDict []);
              parts ← py_get si (py "parts") (JList [JDict []]);
              part ← py_index0 parts;
              py_get part (py "text") (JStr [])) as [text|e] eqn:Hsys.
    2:{ exfalso. revert H Hsys. unfold mbind, result_bind.
        destruct (py_get (JDict d) _ _); [|discriminate].
        destruct (py_get a _ _); [|discriminate].
        destruct (py_index0 a0); [|discriminate].
        destruct (py_get a1 _ _); [|discriminate]. discriminate. }
    assert (Hrest : (items ← py_iter (default (JList [])
                                        (dict_lookup d (py "contents")));
                     collect_texts items
                       (if truthy text then [text] else [])) = Ok texts).
    { revert H Hsys. unfold mbind, result_bind.
      destruct (py_get (JDict d) _ _); [|discriminate].
      destruct (py_get a _ _); [|discriminate].
      destruct (py_index0 a0); [|discriminate].
      destruct (py_get a1 _ _); [|discriminate].
      intros H [= ->]. exact H. }
    destruct (contents_accepts _ _ _ Hrest) as (items & Hitems & Hcollect).
    apply collect_texts_accepts in Hcollect as (outs & Hf & ->).
    exists (if truthy text then [text] else []), items, outs.
    split; [done|]. split; [by apply system_instruction_accepts|done].
  - intros (d & sys & items & outs & -> & Hsys & Hitems & Hf & ->).
    destruct (system_instruction_accepted d sys Hsys) as (text & Htext & ->).
    assert (Hcollect : collect_texts items (if truthy text then [text] else [])
                       = Ok ((if truthy text then [text] else []) ++ concat outs)).
    { apply collect_texts_accepts. by exists outs. }
    revert Htext. unfold extract_texts, mbind, result_bind.
    destruct (py_get (JDict d) (py "systemInstruction") _); [|discriminate].
    destruct (py_get a _ _); [|discriminate].
    destruct (py_index0 a0); [|discriminate].
    intros ->. cbn [py_get].
    destruct Hitems as [d Hc|d items Hc|d Hc|d Hc]; rewrite Hc;
      cbn [default from_option id py_iter map]; exact Hcollect.
Qed.

Lemma accepted_records_witness :
  extract_texts record_chat
  = Ok [JStr (py "be brief"); JStr (py "hello"); JStr (py "hi there")].
Proof.
  apply (proj2 (accepted_records record_chat
                  [JStr (py "be brief"); JStr (py "hello"); JStr (py "hi there")])).
  eexists _, [JStr (py "be brief")], _,
    [[JStr (py "hello")]; [JStr (py "hi there")]].
  split; [reflexivity|]. split; [|split; [|split]].
  - by apply (system_with_parts _ [(py "parts", JList [text_part "be brief"])]
                [(py "text", JStr (py "be brief"))] [] (JStr (py "be brief"))).
  - by apply contents_list.
  - repeat constructor;
      by eapply (entry_with_parts _ [(py "text", _)] []).
  - reflexivity.
Defined.

(** ** Lines that end the run *)

(** X2.  A non-blank line that decodes to something that is not an object
    (an array, a string, a number, [true], [false], [null]) ends the run:
    reading the first field raises [AttributeError], the process prints the
    message of lines 79-81 and exits with code 1, no call is made, and the
    lines after it are not looked at. *)
Theorem non_object_record_is_fatal rt cl model_name st line data rest :
  strip line ≠ [] →
  json_loads rt (strip line) = Ok data →
  (∀ d, data ≠ JDict d) →
  extract_texts data = Raise AttributeError
  ∧ run_lines rt cl model_name st (line :: rest)
    = Stop (State (total_tokens st) (total_examples st) (calls st)
              (stdout st ++ [unexpected_message rt AttributeError]))
           (SysExit 1).
Proof.
  intros Hne Hd Hobj.
  assert (He : extract_texts data = Raise AttributeError).
  { destruct data; try done. by destruct (Hobj d). }
  split; [done|]. cbn [run_lines].
  by rewrite (process_line_extract_error rt cl model_name st line data _ Hne Hd He).
Qed.

Lemma non_object_record_is_fatal_witness :
  run_lines array_rt sample_client default_model init_state
    [line_array; eol line_hi]
  = Stop (State 0 0 [] [py "An unexpected error occurred: AttributeError"])
         (SysExit 1).
Proof.
  apply (proj2 (non_object_record_is_fatal array_rt sample_client default_model
                  init_state line_array (JList [JInt 1; JInt 2]) [eol line_hi]
                  ltac:(vm_compute; discriminate) eq_refl
                  ltac:(intros d; discriminate))).
Defined.

(** X3.  An [APIError] from the service ends the run at that line (lines
    75-78): the call has been made, once; the counters stay as they were;
    the process prints the error line, which names one plus the number of
    records counted so far, then the text of the exception, and exits with
    code 1 without looking at the lines after. *)
Theorem api_error_is_fatal rt cl model_name st line data texts msg rest :
  strip line ≠ [] →
  json_loads rt (strip line) = Ok data →
  extract_texts data = Ok texts →
  count_tokens rt cl (calls st) model_name texts = Raise (APIError msg) →
  run_lines rt cl model_name st (line :: rest)
  = Stop (State (total_tokens st) (total_examples st)
            (calls st ++ [Call model_name texts (Raise (APIError msg))])
            (stdout st ++ [api_error_message (total_examples st + 1);
                           exn_str rt (APIError msg)]))
         (SysExit 1).
Proof.
  intros Hne Hd He Hc. cbn [run_lines].
  rewrite (process_line_call rt cl model_name st line data texts Hne Hd He).
  cbv zeta. rewrite Hc. unfold handle, print, log_call. cbn.
  by rewrite <- app_assoc.
Qed.

Lemma api_error_is_fatal_witness :
  run_lines quota_rt sample_client default_model init_state
    [eol line_hi; eol line_chat; eol line_hi]
  = Stop (State 5 1
            [Call default_model [JStr (py "hi")] (Ok 5);
             Call default_model
               [JStr (py "be brief"); JStr (py "hello"); JStr (py "hi there")]
               (Raise (APIError (py "429 RESOURCE_EXHAUSTED")))]
            [cross_mark :: py " API Error on line 2. Check model name or quotas.";
             py "429 RESOURCE_EXHAUSTED"])
         (SysExit 1).
Proof.
  change (run_lines quota_rt sample_client default_model init_state
            [eol line_hi; eol line_chat; eol line_hi])
    with (run_lines quota_rt sample_client default_model
            (State 5 1 [Call default_model [JStr (py "hi")] (Ok 5)] [])
            [eol line_chat; eol line_hi]).
  apply (api_error_is_fatal quota_rt sample_client default_model
           (State 5 1 [Call default_model [JStr (py "hi")] (Ok 5)] [])
           (eol line_chat) record_chat
           [JStr (py "be brief"); JStr (py "hello"); JStr (py "hi there")]
           (py "429 RESOURCE_EXHAUSTED") [eol line_hi]).
  - vm_compute. discriminate.
  - reflexivity.
  - reflexivity.
  - reflexivity.
Defined.

(** X4.  The first [except] clause catches a [json.JSONDecodeError]
    wherever in the [try] block it is raised.  When it is the call to the
    service that raises it, for a line that did decode, the call has been
    made, the line is not counted, the warning about invalid JSON is
    printed, and the run goes on with the next line. *)
Theorem decode_error_from_service_is_skipped
    rt cl model_name st line data texts msg rest :
  strip line ≠ [] →
  json_loads rt (strip line) = Ok data →
  extract_texts data = Ok texts →
  count_tokens rt cl (calls st) model_name texts = Raise (JSONDecodeError msg) →
  run_lines rt cl model_name st (line :: rest)
  = run_lines rt cl model_name
      (State (total_tokens st) (total_examples st)
         (calls st ++ [Call model_name texts (Raise (JSONDecodeError msg))])
         (stdout st ++ [skip_message (total_examples st + 1)]))
      rest.
Proof.
  intros Hne Hd He Hc. cbn [run_lines].
  rewrite (process_line_call rt cl model_name st line data texts Hne Hd He).
  cbv zeta. by rewrite Hc.
Qed.

Lemma decode_error_from_service_is_skipped_witness :
  run_lines garbled_rt sample_client default_model init_state
    [eol line_hi; eol line_hi]
  = Continue
      (State 7 1
         [Call default_model [JStr (py "hi")]
            (Raise (JSONDecodeError (py "Expecting value")));
          Call default_model [JStr (py "hi")] (Ok 7)]
         [py "Skipping line 1: Invalid JSON format. Run schema validator!"]).
Proof.
  rewrite (decode_error_from_service_is_skipped garbled_rt sample_client
             default_model init_state (eol line_hi) record_hi [JStr (py "hi")]
             (py "Expecting value") [eol line_hi]
             ltac:(vm_compute; discriminate) eq_refl eq_refl eq_refl).
  reflexivity.
Defined.

(** ** A run, line by line *)

Section Trace.

Context (rt : runtime) (cl : client) (model_name : str).

Lemma counted_records_one m texts n :
  counted_records [Call m texts (Ok n)] = 1%nat.
Proof. reflexivity. Qed.

Lemma counted_records_none m texts e :
  counted_records [Call m texts (Raise e)] = 0%nat.
Proof. reflexivity. Qed.

Lemma request_of_blank line : strip line = [] → request_of rt line = None.
Proof.
  intros H. unfold request_of. by rewrite (proj2 (nonblank_strip line) H).
Qed.

Lemma nonblank_true line : strip line ≠ [] → nonblank line = true.
Proof.
  intros H. destruct (nonblank line) eqn:E; [done|]. by apply nonblank_strip in E.
Qed.

(** Everything one turn of the loop does. *)
Lemma process_line_trace st line :
  let s := process_line rt cl model_name st line in
  ∃ new out,
    calls (step_state s) = calls st ++ new
    ∧ stdout (step_state s) = stdout st ++ out
    ∧ map call_contents new `prefix_of` option_list (request_of rt line)
    ∧ served rt cl model_name (calls st) new
    ∧ match s with
      | Continue _ =>
          map call_contents new = option_list (request_of rt line)
          ∧ Forall skip_warning out
          ∧ (if nonblank line then 1%nat else 0%nat)
            = (counted_records new + length out)%nat
      | Stop _ _ => fatal_tail rt out
      end.
Proof.
  intros s. subst s.
  destruct (decide (strip line = [])) as [Hb|Hb].
  { rewrite process_line_blank, request_of_blank by done.
    rewrite (proj2 (nonblank_strip line) Hb).
    exists [], []. cbn. rewrite !app_nil_r. by repeat split. }
  unfold request_of. rewrite (nonblank_true line Hb).
  destruct (json_loads rt (strip line)) as [data|e] eqn:Hd.
  2:{ rewrite (process_line_decode_error _ _ _ _ _ e) by done.
      destruct e; cbn; rewrite ?app_nil_r.
      - exists [], [skip_message (total_examples st + 1)]. cbn.
        rewrite app_nil_r. repeat split; try done.
        constructor; [by eexists|constructor].
      - exists [], [api_error_message (total_examples st + 1);
                    exn_str rt (APIError msg)].
        cbn. rewrite app_nil_r, <- app_assoc. repeat split; try done.
        right. by eexists _, _.
      - exists [], [unexpected_message rt AttributeError]. cbn.
        rewrite app_nil_r. repeat split; try done. left. by eexists.
      - exists [], [unexpected_message rt IndexError]. cbn.
        rewrite app_nil_r. repeat split; try done. left. by eexists.
      - exists [], [unexpected_message rt KeyError]. cbn.
        rewrite app_nil_r. repeat split; try done. left. by eexists.
      - exists [], [unexpected_message rt TypeError]. cbn.
        rewrite app_nil_r. repeat split; try done. left. by eexists.
      - exists [], [unexpected_message rt (OtherException msg)]. cbn.
        rewrite app_nil_r. repeat split; try done. left. by eexists. }
  destruct (extract_texts data) as [texts|e] eqn:He.
  2:{ rewrite (process_line_extract_error _ _ _ _ _ data e) by done.
      exists [], [unexpected_message rt e]. cbn. rewrite app_nil_r.
      repeat split; try done. left. by eexists. }
  rewrite (process_line_call _ _ _ _ _ data texts) by done. cbv zeta.
  destruct (count_tokens rt cl (calls st) model_name texts) as [n|e] eqn:Hc.
  { exists [Call model_name texts (Ok n)], []. cbn. rewrite app_nil_r.
    repeat split; try done. }
  destruct e; cbn.
  - exists [Call model_name texts (Raise (JSONDecodeError msg))],
      [skip_message (total_examples st + 1)].
    cbn. repeat split; try done. constructor; [by eexists|constructor].
  - exists [Call model_name texts (Raise (APIError msg))],
      [api_error_message (total_examples st + 1); exn_str rt (APIError msg)].
    cbn. rewrite <- app_assoc. repeat split; try done. right. by eexists _, _.
  - exists [Call model_name texts (Raise AttributeError)],
      [unexpected_message rt AttributeError].
    cbn. repeat split; try done. left. by eexists.
  - exists [Call model_name texts (Raise IndexError)],
      [unexpected_message rt IndexError].
    cbn. repeat split; try done. left. by eexists.
  - exists [Call model_name texts (Raise KeyError)],
      [unexpected_message rt KeyError].
    cbn. repeat split; try done. left. by eexists.
  - exists [Call model_name texts (Raise TypeError)],
      [unexpected_message rt TypeError].
    cbn. repeat split; try done. left. by eexists.
  - exists [Call model_name texts (Raise (OtherException msg))],
      [unexpected_message rt (OtherException msg)].
    cbn. repeat split; try done. left. by eexists.
Qed.

Lemma served_app before new1 new2 :
  served rt cl model_name before new1 →
  served rt cl model_name (before ++ new1) new2 →
  served rt cl model_name before (new1 ++ new2).
Proof.
  revert before. induction new1 as [|c new1 IH]; intros before H1 H2; cbn in *.
  - by rewrite app_nil_r in H2.
  - destruct H1 as (Hm & Hr & H1). split; [done|]. split; [done|].
    apply IH; [done|]. by rewrite <- app_assoc.
Qed.

Lemma omap_cons_option_list {A B} (f : A → option B) x l :
  omap f (x :: l) = option_list (f x) ++ omap f l.
Proof. cbn. by destruct (f x). Qed.

(** Everything the loop does over the lines it is given. *)
Lemma run_lines_trace lines st :
  let s := run_lines rt cl model_name st lines in
  ∃ new out,
    calls (step_state s) = calls st ++ new
    ∧ stdout (step_state s) = stdout st ++ out
    ∧ map call_contents new `prefix_of` omap (request_of rt) lines
    ∧ served rt cl model_name (calls st) new
    ∧ match s with
      | Continue _ =>
          map call_contents new = omap (request_of rt) lines
          ∧ Forall skip_warning out
          ∧ nonblank_count lines = (counted_records new + length out)%nat
      | Stop _ _ =>
          ∃ ws tail, out = ws ++ tail ∧ Forall skip_warning ws ∧ fatal_tail rt tail
      end.
Proof.
  revert st. induction lines as [|line lines IH]; intros st; cbn [run_lines].
  { exists [], []. cbn. rewrite !app_nil_r. by repeat split. }
  destruct (process_line_trace st line) as (new1 & out1 & Hc1 & Ho1 & Hp1 & Hs1 & H1).
  rewrite omap_cons_option_list, nonblank_count_cons.
  destruct (process_line rt cl model_name st line) as [st1|st1 t1]; cbn in Hc1, Ho1.
  - destruct H1 as (Hm1 & Hw1 & Hn1).
    destruct (IH st1) as (new2 & out2 & Hc2 & Ho2 & Hp2 & Hs2 & H2).
    exists (new1 ++ new2), (out1 ++ out2).
    rewrite Hc2, Ho2, Hc1, Ho1, <- !app_assoc, map_app, Hm1.
    split; [done|]. split; [done|].
    split; [by apply prefix_app|].
    split; [apply served_app; [done|by rewrite <- Hc1]|].
    destruct (run_lines rt cl model_name st1 lines) as [st2|st2 t2].
    + destruct H2 as (Hm2 & Hw2 & Hn2). rewrite Hm2.
      split; [done|]. split; [by apply Forall_app|].
      rewrite counted_records_app, length_app. lia.
    + destruct H2 as (ws & tail & -> & Hws & Htail).
      exists (out1 ++ ws), tail. rewrite <- app_assoc.
      split; [done|]. split; [by apply Forall_app|done].
  - exists new1, out1. split; [done|]. split; [done|].
    split; [by apply prefix_app_r|]. split; [done|].
    exists [], out1. split; [done|]. split; [constructor|done].
Qed.

End Trace.

(** ** The checks, one after the other *)

(** X5.  The checks of lines 15-37 are made in this order, and the first
    that fails ends the run with its own message, exit code 1 and nothing
    else done: the file, whatever the environment; then the two variables,
    whatever the client would do; then the construction of the client, whose
    failure prints the line of line 35 and the text of the exception. *)
Theorem checks_in_order rt w file_path model_name :
  (files w !! file_path = None →
   count_tokens_in_jsonl rt w file_path model_name
   = (State 0 0 [] (file_not_found file_path), SysExit 1))
  ∧ (∀ node,
       files w !! file_path = Some node →
       env_missing (environ w !! py "GCP_PROJECT") = true
       ∨ env_missing (environ w !! py "GCP_LOCATION") = true →
       count_tokens_in_jsonl rt w file_path model_name
       = (State 0 0 [] environment_missing, SysExit 1))
  ∧ (∀ node project_id location e,
       files w !! file_path = Some node →
       environ w !! py "GCP_PROJECT" = Some project_id → project_id ≠ [] →
       environ w !! py "GCP_LOCATION" = Some location → location ≠ [] →
       genai_Client rt project_id location = Raise e →
       count_tokens_in_jsonl rt w file_path model_name
       = (State 0 0 [] (client_failed rt e), SysExit 1)).
Proof.
  split; [|split].
  - intros Hf. apply run_before_loop. unfold startup, os_path_exists.
    by rewrite Hf, bool_decide_eq_false_2 by (by intros [? ?]).
  - intros node Hf Henv. apply run_before_loop. unfold startup, os_path_exists.
    rewrite Hf, bool_decide_eq_true_2 by (by eexists). cbn [negb].
    assert (env_missing (environ w !! py "GCP_PROJECT")
            || env_missing (environ w !! py "GCP_LOCATION") = true) as ->; [|done].
    destruct Henv as [->| ->]; [done|apply orb_true_r].
  - intros node pid loc e Hf Hp Hpne Hl Hlne Hc. apply run_before_loop.
    unfold startup, os_path_exists.
    rewrite Hf, bool_decide_eq_true_2 by (by eexists). cbn [negb].
    rewrite Hp, Hl. destruct pid; [done|]. destruct loc; [done|].
    cbn. by rewrite Hc.
Qed.

Lemma checks_in_order_witness :
  count_tokens_in_jsonl no_client_rt (with_file clean_lines) (py "nowhere.jsonl")
    default_model
  = (State 0 0 [] (file_not_found (py "nowhere.jsonl")), SysExit 1)
  ∧ count_tokens_in_jsonl no_client_rt
      (World {[ default_path := FsFile clean_lines ]}
             {[ py "GCP_PROJECT" := py "demo" ]})
      default_path default_model
    = (State 0 0 [] environment_missing, SysExit 1)
  ∧ count_tokens_in_jsonl no_client_rt (with_file clean_lines) default_path
      default_model
    = (State 0 0 []
         (client_failed no_client_rt
            (OtherException (py "DefaultCredentialsError"))),
       SysExit 1).
Proof.
  split; [|split].
  - apply (proj1 (checks_in_order no_client_rt (with_file clean_lines)
                    (py "nowhere.jsonl") default_model)).
    reflexivity.
  - apply (proj1 (proj2 (checks_in_order no_client_rt
                           (World {[ default_path := FsFile clean_lines ]}
                                  {[ py "GCP_PROJECT" := py "demo" ]})
                           default_path default_model))
             (FsFile clean_lines)); [reflexivity|].
    right. reflexivity.
  - apply (proj2 (proj2 (checks_in_order no_client_rt (with_file clean_lines)
                           default_path default_model))
             (FsFile clean_lines) (py "demo") (py "us-central1")).
    + reflexivity.
    + reflexivity.
    + discriminate.
    + reflexivity.
    + discriminate.
    + reflexivity.
Defined.

(** X6.  The check of line 15 lets a directory through.  When the path
    names one and the other checks pass, the header is printed, [open]
    raises, nothing catches the exception, and the process ends with exit
    code 1, without a call and without the messages of the script. *)
Theorem directory_passes_the_check rt w file_path model_name cl st0 :
  files w !! file_path = Some FsDir →
  startup rt w file_path model_name = inl (Started cl st0) →
  ∃ location,
    environ w !! py "GCP_LOCATION" = Some location
    ∧ count_tokens_in_jsonl rt w file_path model_name
      = (State 0 0 [] (header model_name location),
         Uncaught (OtherException (py "IsADirectoryError")))
    ∧ exit_code (Uncaught (OtherException (py "IsADirectoryError"))) = 1.
Proof.
  intros Hf Hs.
  destruct (startup_started _ _ _ _ _ _ Hs)
    as (_ & _ & loc & _ & _ & _ & Hl & _ & _ & ->).
  exists loc. split; [done|]. split; [|done].
  unfold count_tokens_in_jsonl, open_lines. by rewrite Hs, Hf.
Qed.

Lemma directory_passes_the_check_witness :
  ∃ location,
    environ with_directory !! py "GCP_LOCATION" = Some location
    ∧ count_tokens_in_jsonl sample_rt with_directory default_path default_model
      = (State 0 0 [] (header default_model location),
         Uncaught (OtherException (py "IsADirectoryError")))
    ∧ exit_code (Uncaught (OtherException (py "IsADirectoryError"))) = 1.
Proof.
  apply (directory_passes_the_check sample_rt with_directory default_path
           default_model sample_client
           (State 0 0 [] (header default_model (py "us-central1")))).
  - reflexivity.
  - reflexivity.
Defined.

(** ** Exit code and report *)







(** ** What is sent to the service *)

(** X8.  In a run that passes the start-up checks, the service is asked,
    in the order of the file, for the texts of the lines that are not blank,
    decode and have their fields in place: for a first stretch of them in
    any run, for all of them when the run reaches the report.  Each call
    carries the model name, and its recorded answer is what the service
    gave after the calls before it: no call is made twice. *)
Theorem calls_follow_the_file rt w file_path model_name cl st0 lines st t :
  startup rt w file_path model_name = inl (Started cl st0) →
  files w !! file_path = Some (FsFile lines) →
  count_tokens_in_jsonl rt w file_path model_name = (st, t) →
  map call_contents (calls st) `prefix_of` omap (request_of rt) lines
  ∧ (t = Completed → map call_contents (calls st) = omap (request_of rt) lines)
  ∧ served rt cl model_name [] (calls st).
Proof.
  intros Hs Hf Hrun. apply open_lines_ok in Hf.
  unfold count_tokens_in_jsonl in Hrun. rewrite Hs, Hf in Hrun.
  destruct (startup_started _ _ _ _ _ _ Hs)
    as (_ & _ & loc & _ & _ & _ & _ & _ & _ & ->).
  destruct (run_lines_trace rt cl model_name lines
              (State 0 0 [] (header model_name loc)))
    as (new & out & Hcalls & _ & Hpre & Hserved & Hend).
  cbn in Hcalls, Hserved.
  destruct (run_lines rt cl model_name _ lines) as [st1|st1 t1] eqn:Hloop;
    injection Hrun as <- <-; cbn in *; rewrite Hcalls.
  - destruct Hend as (Heq & _). by repeat split.
  - apply run_lines_stop in Hloop as ->. by repeat split.
Qed.

Lemma calls_follow_the_file_witness :
  map call_contents
    (calls (count_tokens_in_jsonl sample_rt (with_file mixed_lines)
              default_path default_model).1)
  = [[JStr (py "hi")];
     [JStr (py "be brief"); JStr (py "hello"); JStr (py "hi there")]].
Proof.
  destruct (calls_follow_the_file sample_rt (with_file mixed_lines)
              default_path default_model sample_client
              (State 0 0 [] (header default_model (py "us-central1")))
              mixed_lines
              (count_tokens_in_jsonl sample_rt (with_file mixed_lines)
                 default_path default_model).1
              Completed) as (_ & Heq & _).
  - reflexivity.
  - reflexivity.
  - reflexivity.
  - rewrite (Heq eq_refl). reflexivity.
Defined.

(** ** What a completed run has printed and seen *)



Lemma process_line_continue_line rt cl model_name st line st' :
  process_line rt cl model_name st line = Continue st' →
  nonblank line = true →
  (∃ msg, json_loads rt (strip line) = Raise (JSONDecodeError msg))
  ∨ well_formed rt line = true.
Proof.
  intros Hp Hnb.
  assert (Hne : strip line ≠ []).
  { intros Hs. apply nonblank_strip in Hs. congruence. }
  unfold well_formed.
  destruct (json_loads rt (strip line)) as [data|e] eqn:Hd.
  - destruct (extract_texts data) as [texts|e] eqn:He; [by right|].
    by rewrite (process_line_extract_error _ _ _ _ _ data e) in Hp.
  - rewrite (process_line_decode_error _ _ _ _ _ e) in Hp by done.
    destruct e; try discriminate Hp. left. by eexists.
Qed.

(** X12.  What a run that reaches the report says about the file: each of
    its non-blank lines either was rejected by [json.loads] as invalid JSON
    or held a record with its fields in place.  A line of any other kind
    would have ended the run. *)
Theorem completed_run_lines rt w file_path model_name lines st :
  files w !! file_path = Some (FsFile lines) →
  count_tokens_in_jsonl rt w file_path model_name = (st, Completed) →
  ∀ line, line ∈ lines → nonblank line = true →
    (∃ msg, json_loads rt (strip line) = Raise (JSONDecodeError msg))
    ∨ well_formed rt line = true.
Proof.
  intros Hf Hrun.
  destruct (run_completed _ _ _ _ _ Hrun)
    as (cl & st0 & lines' & st1 & _ & Ho & Hcont & _).
  apply open_lines_ok in Hf. rewrite Hf in Ho. injection Ho as <-.
  clear Hrun Hf. revert st0 Hcont.
  induction lines as [|l lines IH]; intros st0 Hcont line Hin Hnb.
  { by apply elem_of_nil in Hin. }
  cbn [run_lines] in Hcont.
  destruct (process_line rt cl model_name st0 l) as [st2|] eqn:Hp; [|done].
  apply elem_of_cons in Hin as [->|Hin].
  - by eapply process_line_continue_line.
  - by eapply IH.
Qed.

Lemma completed_run_lines_witness :
  (∃ msg, json_loads sample_rt (strip (eol line_garbled))
          = Raise (JSONDecodeError msg))
  ∨ well_formed sample_rt (eol line_garbled) = true.
Proof.
  apply (completed_run_lines sample_rt (with_file mixed_lines) default_path
           default_model mixed_lines
           (count_tokens_in_jsonl sample_rt (with_file mixed_lines)
              default_path default_model).1).
  - reflexivity.
  - reflexivity.
  - apply list_elem_of_further, list_elem_of_further, list_elem_of_here.
  - reflexivity.
Defined.

(** ** Silence *)

(** X11.  A turn of the loop leaves the state untouched for the lines that
    hold nothing but whitespace, and for no other line: a line with anything
    else on it leads to a call or to a message, or ends the run. *)
Theorem only_blank_lines_are_silent rt cl model_name st line :
  process_line rt cl model_name st line = Continue st
  ↔ ∀ c, c ∈ line → isspace_char c = true.
Proof.
  assert (Hblank : strip line = [] ↔ ∀ c, c ∈ line → isspace_char c = true).
  { rewrite strip_nil, forallb_forall. split; intros H c Hc; apply H.
    - by apply list_elem_of_In.
    - by apply list_elem_of_In. }
  rewrite <- Hblank. split; [|apply process_line_blank].
  intros Hp. destruct (decide (strip line = [])) as [|Hne]; [done|]. exfalso.
  destruct (process_line_trace rt cl model_name st line)
    as (new & out & Hcalls & Hout & _ & _ & Hend).
  rewrite Hp in *. cbn [step_state] in *.
  rewrite (nonblank_true line Hne) in Hend. destruct Hend as (_ & _ & Hn).
  assert (new = []) as ->.
  { apply (app_inv_head (calls st)). by rewrite app_nil_r. }
  assert (out = []) as ->.
  { apply (app_inv_head (stdout st)). by rewrite app_nil_r. }
  discriminate Hn.
Qed.

Lemma only_blank_lines_are_silent_witness :
  process_line sample_rt sample_client default_model init_state
    [32; 0xA0; 0x3000; newline]%N
  = Continue init_state.
Proof.
  apply (proj2 (only_blank_lines_are_silent sample_rt sample_client
                  default_model init_state [32; 0xA0; 0x3000; newline]%N)).
  intros c Hc.
  apply elem_of_cons in Hc as [->|Hc]; [reflexivity|].
  apply elem_of_cons in Hc as [->|Hc]; [reflexivity|].
  apply elem_of_cons in Hc as [->|Hc]; [reflexivity|].
  apply elem_of_cons in Hc as [->|Hc]; [reflexivity|].
  by apply elem_of_nil in Hc.
Defined.

(** ** The model name *)

Lemma served_models rt cl model_name before new :
  served rt cl model_name before new →
  Forall (λ c, call_model c = model_name) new.
Proof.
  revert before. induction new as [|c new IH]; intros before H; [constructor|].
  destruct H as (Hm & _ & H). constructor; [done|by eapply IH].
Qed.

(** X9.  Every call of a run started from the command line carries the
    model name given with [--model], or [gemini-2.0-flash-001] when the flag
    is absent, whatever the path and however the run ends. *)
Theorem model_flag_reaches_every_call rt w file_path model st t :
  main rt w file_path model = (st, t) →
  Forall (λ c, call_model c = default (py "gemini-2.0-flash-001") model)
         (calls st).
Proof.
  unfold main, parse_args. cbn [fst snd].
  set (path := file_to_check _). set (model_name := default _ model).
  intros Hrun.
  destruct (run_cases _ _ _ _ _ _ Hrun) as [Hs|(cl & st0 & Hs & Hrest)].
  { destruct (startup_stopped _ _ _ _ _ _ Hs) as (_ & -> & _). constructor. }
  destruct (startup_started _ _ _ _ _ _ Hs)
    as (_ & _ & loc & _ & _ & _ & _ & _ & _ & ->).
  destruct Hrest as [(e & _ & -> & _)|(lines & _ & Hloop)]; [constructor|].
  destruct (run_lines_trace rt cl model_name lines
              (State 0 0 [] (header model_name loc)))
    as (new & out & Hcalls & _ & _ & Hserved & _).
  apply served_models in Hserved. cbn [calls app] in Hcalls.
  destruct Hloop as [Hstop|(st1 & Hcont & -> & _)].
  - rewrite Hstop in Hcalls. cbn in Hcalls. by rewrite Hcalls.
  - rewrite Hcont in Hcalls. cbn in Hcalls. unfold final_report. cbn [calls].
    by rewrite Hcalls.
Qed.

Lemma model_flag_reaches_every_call_witness :
  Forall (λ c, call_model c = py "gemini-2.5-pro")
    (calls (main sample_rt (with_file mixed_lines) None
              (Some (py "gemini-2.5-pro"))).1)
  ∧ length (calls (main sample_rt (with_file mixed_lines) None
                     (Some (py "gemini-2.5-pro"))).1) = 2%nat.
Proof.
  split; [|reflexivity].
  apply (model_flag_reaches_every_call sample_rt (with_file mixed_lines) None
           (Some (py "gemini-2.5-pro")) _
           (main sample_rt (with_file mixed_lines) None
              (Some (py "gemini-2.5-pro"))).2).
  reflexivity.
Defined.
